(** * newapi-panel: the admin console backend of [main.py]

    A shallow embedding of the service: the two stores it talks to (the
    local SQLite file with [admin_sessions] and [settings], the external
    PostgreSQL table [users]), the data-access functions, the HTTP handlers
    and the quota-reset job, followed by the properties of the
    specification that concern them.

    Conventions of the embedding.
    - Python [int] and the integer columns are [Z]; the column types of
      [users] belong to the external schema and are not in the source, so
      no range is imposed on them.
    - Python [str] is [string]; text is taken to be ASCII.  The
      interpreter's cap on the number of digits that [int] and [str]
      convert is left out.
    - A function that talks to a store is a computation in the monad [M]:
      it takes the [world], returns a value or raises, and leaves a world.
    - A route is its handler function, applied to the arguments the
      framework passes once it has checked the request against the
      payload model; an exception that leaves the handler is the error
      response.
    - The primary key of [users] is not in the source either; where a
      statement needs ids to be unique it says so.
    - The PostgreSQL server can refuse any interaction; [pg_faults] is the
      schedule of refusals still to come: [n :: fs] says that the next
      [n] interactions are answered and the one after them is refused,
      then [fs] applies; [[]] says that nothing is refused any more.
      SQLite is the process's own file and is taken not to fail.
    - The PostgreSQL driver writes the parameters into a statement
      before it sends it and refuses a string with the NUL character in
      it; SQLite binds its parameters and takes any string.
    - The source asks the server for no order, so the rows of a [SELECT]
      come in an order of the server's choosing; the table is a list
      here, rows are returned in its order, and a row is known by its
      place in it.  What is stated of the order in which the job visits
      its users is stated up to that order.
    - A login draws its bytes from a random source given to it, a
      function from places to bytes.
    - [journal] records every statement sent to either store and [stdout]
      every line printed, in order; they are how "before", "one
      statement" and "logs" are stated. *)

From Stdlib Require Import ZArith Ascii String List Lia Bool.
From Stdlib Require Import DecimalString DecimalZ DecimalPos DecimalN Decimal.
From stdpp Require Import base option list strings gmap.

Local Open Scope Z_scope.
Local Open Scope string_scope.

(** ** Python primitives used by the source *)

Module Py.

(** [s.startswith(p)]. *)
Definition startswith (s p : string) : bool := String.prefix p s.

(** [s[n:]]. *)
Fixpoint slice_from (n : nat) (s : string) : string :=
  match n, s with
  | O, _ => s
  | S _, EmptyString => EmptyString
  | S n', String _ r => slice_from n' r
  end.

(** [bytes.hex()]: two lowercase hexadecimal digits per byte. *)
Definition hex_digit (n : N) : ascii :=
  match n with
  | 0 => "0" | 1 => "1" | 2 => "2" | 3 => "3" | 4 => "4" | 5 => "5"
  | 6 => "6" | 7 => "7" | 8 => "8" | 9 => "9" | 10 => "a" | 11 => "b"
  | 12 => "c" | 13 => "d" | 14 => "e" | _ => "f"
  end%N%char.

Fixpoint hex (bs : list Byte.byte) : string :=
  match bs with
  | [] => EmptyString
  | b :: r =>
      let n := Byte.to_N b in
      String (hex_digit (n / 16)) (String (hex_digit (n mod 16)) (hex r))
  end.

(** [str(n)] for an integer: the decimal numeral, ["-"] in front of a
    negative one, no leading zero. *)
Definition str (z : Z) : string := NilZero.string_of_int (Z.to_int z).

(** [int(s)] for a string, base ten: surrounding whitespace is dropped,
    one sign is allowed, then decimal digits, where a single underscore
    may stand between two digits.  Anything else is a [ValueError],
    here [None].  The whitespace [int] drops from ASCII text is the tab,
    the line feed, the vertical tab, the form feed, the carriage return
    and the space; the separators 28 to 31, which [str.strip] would drop,
    are not among it. *)
Definition is_space (c : ascii) : bool :=
  let n := nat_of_ascii c in
  ((9 <=? n) && (n <=? 13) || (n =? 32))%nat.

Definition digit_val (c : ascii) : option Z :=
  let n := Z.of_nat (nat_of_ascii c) in
  if ((48 <=? n) && (n <=? 57))%Z then Some (n - 48) else None.

Fixpoint lstrip (s : list ascii) : list ascii :=
  match s with
  | c :: r => if is_space c then lstrip r else s
  | [] => []
  end.

Definition strip (s : list ascii) : list ascii :=
  List.rev (lstrip (List.rev (lstrip s))).

Fixpoint parse_digits (acc : Z) (after_digit : bool) (s : list ascii)
  : option Z :=
  match s with
  | [] => if after_digit then Some acc else None
  | c :: r =>
      match digit_val c with
      | Some d => parse_digits (10 * acc + d) true r
      | None =>
          if Ascii.eqb c "_" && after_digit
          then parse_digits acc false r
          else None
      end
  end.

Definition int (s : string) : option Z :=
  match strip (list_ascii_of_string s) with
  | c :: r =>
      if Ascii.eqb c "-" then Z.opp <$> parse_digits 0 false r
      else if Ascii.eqb c "+" then parse_digits 0 false r
      else parse_digits 0 false (c :: r)
  | [] => None
  end.

(** [s.upper()], on ASCII text: the letters a to z become A to Z. *)
Definition upper_char (c : ascii) : ascii :=
  let n := nat_of_ascii c in
  if ((97 <=? n) && (n <=? 122))%nat then ascii_of_nat (n - 32) else c.

Fixpoint upper (s : string) : string :=
  match s with
  | EmptyString => EmptyString
  | String c r => String (upper_char c) (upper r)
  end.

(** [os.urandom(n)]: the next [n] bytes of the operating system's random
    source, of which [rnd i] is the byte at place [i]. *)
Definition urandom (rnd : nat -> Byte.byte) (n : nat) : list Byte.byte :=
  map rnd (seq 0 n).

End Py.

(** ** Data model *)

(** A row of the external [users] table, with the columns the source
    reads or writes.  [deleted_at] is the soft-delete marker: [None] is
    SQL [NULL]. *)
Record user_row := mk_user {
  uid : Z;
  username : string;
  display_name : string;
  group : string;
  quota : Z;
  used_quota : Z;
  deleted_at : option string
}.

(** A row of [admin_sessions]. *)
Record session_row := mk_session {
  sid : Z;
  token : string;
  created_at : string
}.

(** The five PostgreSQL statements of the source. *)
Inductive pg_stmt :=
| UpdateResetQuota (new_quota user_id : Z)
| SelectUser (user_id : Z)
| UpdateGroup (new_group : string) (user_id : Z)
| UpdateIncrement (delta user_id : Z)
| SelectByGroups (g1 g2 : string).

(** Everything sent to a store. *)
Inductive stmt :=
| SelectSession (tok : string)
| InsertSession (tok created : string)
| SelectSetting (key : string)
| ReplaceSetting (key value : string)
| PgConnect
| PgExecute (q : pg_stmt)
| PgCommit.

Inductive exn :=
| HTTPException (status : Z) (detail : string)
| ValueError
| OperationalError.

(** The lines [daily_reset] prints; the timestamp in front of some of
    them is left out.  [LogReset] carries the group as it is printed,
    in upper case. *)
Inductive log_line :=
| LogStart (triggered_by : string)
| LogFound (n : nat)
| LogReset (user_group : string) (user_id quota_to_set : Z)
| LogDone
| LogFailed (e : exn).

Record world := mk_world {
  sessions : list session_row;
  settings : gmap string string;
  users : list user_row;
  pg_faults : list nat;
  journal : list stmt;
  stdout : list log_line
}.

Definition set_sessions (x : list session_row) (w : world) : world :=
  mk_world x (settings w) (users w) (pg_faults w) (journal w) (stdout w).
Definition set_settings (x : gmap string string) (w : world) : world :=
  mk_world (sessions w) x (users w) (pg_faults w) (journal w) (stdout w).
Definition set_users (x : list user_row) (w : world) : world :=
  mk_world (sessions w) (settings w) x (pg_faults w) (journal w) (stdout w).
Definition set_pg_faults (x : list nat) (w : world) : world :=
  mk_world (sessions w) (settings w) (users w) x (journal w) (stdout w).
Definition record (s : stmt) (w : world) : world :=
  mk_world (sessions w) (settings w) (users w) (pg_faults w)
           (journal w ++ [s]) (stdout w).
Definition emit (l : log_line) (w : world) : world :=
  mk_world (sessions w) (settings w) (users w) (pg_faults w)
           (journal w) (stdout w ++ [l]).

(** ** The monad of store-touching code *)

Inductive result (A : Type) :=
| Ok (a : A)
| Raise (e : exn).
Arguments Ok {A} a.
Arguments Raise {A} e.

Definition M (A : Type) : Type := world -> result A * world.

Definition ret {A} (a : A) : M A := fun w => (Ok a, w).
Definition raise {A} (e : exn) : M A := fun w => (Raise e, w).
Definition bind {A B} (m : M A) (k : A -> M B) : M B :=
  fun w =>
    match m w with
    | (Ok a, w') => k a w'
    | (Raise e, w') => (Raise e, w')
    end.

Declare Scope py_scope.
Delimit Scope py_scope with py.
Notation "'let!' x ':=' m 'in' k" := (bind m (fun x => k))
  (at level 10, x pattern, m at level 100, k at level 200) : py_scope.
Notation "m '>>' k" := (bind m (fun _ => k))
  (at level 90, right associativity) : py_scope.
Local Open Scope py_scope.

(** [try: m  except Exception as e: h e]. *)
Definition try_except {A} (m : M A) (h : exn -> M A) : M A :=
  fun w =>
    match m w with
    | (Ok a, w') => (Ok a, w')
    | (Raise e, w') => h e w'
    end.

(** [try: m  finally: f]. *)
Definition try_finally {A} (m : M A) (f : M unit) : M A :=
  fun w =>
    match m w with
    | (Ok a, w') =>
        match f w' with
        | (Ok _, w'') => (Ok a, w'')
        | (Raise e, w'') => (Raise e, w'')
        end
    | (Raise e, w') =>
        match f w' with
        | (Ok _, w'') => (Raise e, w'')
        | (Raise e', w'') => (Raise e', w'')
        end
    end.

(** [for x in xs: body x]. *)
Fixpoint for_each {A} (xs : list A) (body : A -> M unit) : M unit :=
  match xs with
  | [] => ret tt
  | x :: r => body x >> for_each r body
  end.

Definition print (l : log_line) : M unit := fun w => (Ok tt, emit l w).

(** [int(s)], raising on a string that is no numeral. *)
Definition py_int (s : string) : M Z :=
  match Py.int s with
  | Some z => ret z
  | None => raise ValueError
  end.

(** ** The local store: sessions and settings (SQLite) *)

(** [SELECT 1 FROM admin_sessions WHERE token=?] followed by
    [fetchone()]: the first row with exactly that token, if any. *)
Definition session_lookup (tok : string) (ss : list session_row)
  : option session_row :=
  List.find (fun r => String.eqb (token r) tok) ss.

Definition is_valid_token (tok : string) (ss : list session_row) : bool :=
  match session_lookup tok ss with
  | Some _ => true
  | None => false
  end.

Definition select_session (tok : string) : M (option session_row) :=
  fun w =>
    let w1 := record (SelectSession tok) w in
    (Ok (session_lookup tok (sessions w1)), w1).

(** [AUTOINCREMENT]: one more than the largest id in the table (rows are
    never deleted by this program). *)
Definition next_sid (ss : list session_row) : Z :=
  1 + fold_right Z.max 0 (map sid ss).

Definition insert_session (tok created : string) : M unit :=
  fun w =>
    let w1 := record (InsertSession tok created) w in
    (Ok tt,
     set_sessions
       (sessions w1 ++ [mk_session (next_sid (sessions w1)) tok created]) w1).

Definition get_setting (key default : string) : M string :=
  fun w =>
    let w1 := record (SelectSetting key) w in
    (Ok (match settings w1 !! key with
         | Some value => value
         | None => default
         end), w1).

Definition set_setting (key value : string) : M unit :=
  fun w =>
    let w1 := record (ReplaceSetting key value) w in
    (Ok tt, set_settings (<[key := value]> (settings w1)) w1).

(** ** The tenant store: users (PostgreSQL) *)

Definition live (u : user_row) : bool :=
  match deleted_at u with
  | None => true
  | Some _ => false
  end.

(** [WHERE id = %s AND "deleted_at" IS NULL]. *)
Definition selected (user_id : Z) (u : user_row) : bool :=
  (uid u =? user_id)%Z && live u.

(** [WHERE "group" IN (%s, %s) AND "deleted_at" IS NULL]. *)
Definition in_groups (g1 g2 : string) (u : user_row) : bool :=
  (String.eqb (group u) g1 || String.eqb (group u) g2) && live u.

Definition with_quota_reset (new_quota : Z) (u : user_row) : user_row :=
  mk_user (uid u) (username u) (display_name u) (group u)
          new_quota 0 (deleted_at u).
Definition with_group (g : string) (u : user_row) : user_row :=
  mk_user (uid u) (username u) (display_name u) g
          (quota u) (used_quota u) (deleted_at u).
Definition with_quota_added (delta : Z) (u : user_row) : user_row :=
  mk_user (uid u) (username u) (display_name u) (group u)
          (quota u + delta) (used_quota u) (deleted_at u).

Definition update_where (p : user_row -> bool) (f : user_row -> user_row)
  (t : list user_row) : list user_row :=
  map (fun u => if p u then f u else u) t.

(** What a statement does to the table, and the rows it returns.  A
    [SELECT] returns whole rows here, of which the caller reads the
    selected columns.  The source never asks for an order, so the order
    of the rows returned is the server's to choose; they come in table
    order here, and what is stated of the rows the job visits is stated
    up to their order (with unique ids the table a complete run leaves
    does not depend on it, [job_table_permuted]). *)
Definition pg_run (q : pg_stmt) (t : list user_row)
  : list user_row * list user_row :=
  match q with
  | UpdateResetQuota new_quota user_id =>
      (update_where (selected user_id) (with_quota_reset new_quota) t, [])
  | SelectUser user_id =>
      (t, List.firstn 1 (List.filter (selected user_id) t))
  | UpdateGroup g user_id =>
      (update_where (selected user_id) (with_group g) t, [])
  | UpdateIncrement delta user_id =>
      (update_where (selected user_id) (with_quota_added delta) t, [])
  | SelectByGroups g1 g2 =>
      (t, List.filter (in_groups g1 g2) t)
  end.

(** One interaction with the server: it is journalled, then the server
    answers or refuses according to the schedule. *)
Definition pg_interact (s : stmt) : M unit :=
  fun w =>
    let w1 := record s w in
    match pg_faults w1 with
    | [] => (Ok tt, w1)
    | O :: fs => (Raise OperationalError, set_pg_faults fs w1)
    | S n :: fs => (Ok tt, set_pg_faults (n :: fs) w1)
    end.

(** A connection carries the table as its open transaction sees it
    (the committed table, with the transaction's own statements applied);
    nothing reaches [users] before [commit]. *)
Record connection := mk_conn { pending : list user_row }.

Definition postgres_conn : M connection :=
  pg_interact PgConnect >>
  fun w => (Ok (mk_conn (users w)), w).

(** The driver writes the parameters into the statement before it sends
    it.  An integer is always written; a string that contains the NUL
    character is refused with a [ValueError], and then nothing is sent. *)
Definition has_nul (s : string) : bool :=
  existsb (Ascii.eqb Ascii.zero) (list_ascii_of_string s).

Definition quotable (q : pg_stmt) : bool :=
  match q with
  | UpdateGroup new_group _ => negb (has_nul new_group)
  | SelectByGroups g1 g2 => negb (has_nul g1) && negb (has_nul g2)
  | UpdateResetQuota _ _ | SelectUser _ | UpdateIncrement _ _ => true
  end.

(** [cur.execute(q)]: returns the connection with the statement applied
    inside its transaction, and the rows to fetch. *)
Definition execute (conn : connection) (q : pg_stmt)
  : M (connection * list user_row) :=
  if quotable q then
    pg_interact (PgExecute q) >>
    let (t, rows) := pg_run q (pending conn) in
    ret (mk_conn t, rows)
  else raise ValueError.

Definition commit (conn : connection) : M unit :=
  pg_interact PgCommit >>
  fun w => (Ok tt, set_users (pending conn) w).

(** [conn.close()]: uncommitted work is dropped. *)
Definition close (conn : connection) : M unit := ret tt.

(** [cur.fetchone()]. *)
Definition fetchone (rows : list user_row) : option user_row := head rows.

(** The columns [get_user_by_id] selects, as the dictionary it returns. *)
Record user_info := mk_info {
  info_id : Z;
  info_username : string;
  info_display_name : string;
  info_group : string;
  info_quota : Z;
  info_used_quota : Z
}.

Definition dict (row : user_row) : user_info :=
  mk_info (uid row) (username row) (display_name row) (group row)
          (quota row) (used_quota row).

Definition reset_user_quota (user_id new_quota : Z) : M unit :=
  let! conn := postgres_conn in
  try_finally
    (let! (conn', _) := execute conn (UpdateResetQuota new_quota user_id) in
     commit conn')
    (close conn).

Definition get_user_by_id (user_id : Z) : M user_info :=
  let! conn := postgres_conn in
  try_finally
    (let! (_, rows) := execute conn (SelectUser user_id) in
     match fetchone rows with
     | None => raise (HTTPException 404 "User not found or has been deleted")
     | Some row => ret (dict row)
     end)
    (close conn).

Definition update_user_group (user_id : Z) (g : string) : M unit :=
  let! conn := postgres_conn in
  try_finally
    (let! (conn', _) := execute conn (UpdateGroup g user_id) in
     commit conn')
    (close conn).

Definition increment_user_quota (user_id delta : Z) : M unit :=
  let! conn := postgres_conn in
  try_finally
    (let! (conn', _) := execute conn (UpdateIncrement delta user_id) in
     commit conn')
    (close conn).

(** ** Request payloads *)

Module AdminLoginPayload.
Record t := mk { password : string }.
End AdminLoginPayload.

Module UserGroupUpdatePayload.
Record t := mk { user_id : Z; group : string }.
End UserGroupUpdatePayload.

Module UserQuotaUpdatePayload.
Record t := mk { user_id : Z; delta : Z }.
End UserQuotaUpdatePayload.

Module UserQuotaResetPayload.
Record t := mk { user_id : Z; quota : Z }.
End UserQuotaResetPayload.

Module DailyResetSettingsPayload.
Record t := mk { vip_quota : Z; default_quota : Z }.
End DailyResetSettingsPayload.

(** Of a request the handlers read one header. *)
Record request := mk_request { authorization : option string }.

(** JSON bodies of the successful responses. *)
Inductive body :=
| TokenBody (tok : string)
| SettingsBody (vip_quota default_quota : Z)
| OkMessageBody (message : string)
| OkBody
| UserBody (u : user_info).

(** ** Admin authentication *)

Definition access_denied : exn := HTTPException 403 "Admin access required".

Definition require_admin_auth (request : request) : M unit :=
  let auth_header := default "" (authorization request) in
  if negb (Py.startswith auth_header "Bearer ") then raise access_denied
  else
    let tok := Py.slice_from 7 auth_header in
    let! row := select_session tok in
    match row with
    | None => raise access_denied
    | Some _ => ret tt
    end.

(** ** The reset job *)

Definition daily_reset_body : M unit :=
  let! vip_text := get_setting "daily_reset_quota_vip" "1000000" in
  let! vip_quota := py_int vip_text in
  let! default_text := get_setting "daily_reset_quota_default" "50000" in
  let! default_quota := py_int default_text in
  let! conn := postgres_conn in
  let! (_, users_to_reset) := execute conn (SelectByGroups "vip" "default") in
  print (LogFound (length users_to_reset)) >>
  for_each users_to_reset (fun user_row =>
    let user_id := uid user_row in
    let user_group := group user_row in
    let quota_to_set :=
      if String.eqb user_group "vip" then vip_quota else default_quota in
    reset_user_quota user_id quota_to_set >>
    print (LogReset (Py.upper user_group) user_id quota_to_set)) >>
  close conn >>
  print LogDone.

Definition daily_reset (triggered_by : string) : M unit :=
  print (LogStart triggered_by) >>
  try_except daily_reset_body (fun e => print (LogFailed e)).

(** ** Routes *)

(** [rnd] is the random source [os.urandom] draws from at this call
    and [now] is [datetime.datetime.utcnow().isoformat()]. *)
Definition admin_login (ADMIN_PASSWORD : string)
  (payload : AdminLoginPayload.t) (rnd : nat -> Byte.byte) (now : string)
  : M body :=
  if negb (String.eqb (AdminLoginPayload.password payload) ADMIN_PASSWORD)
  then raise (HTTPException 401 "Invalid admin password")
  else
    let tok := Py.hex (Py.urandom rnd 16) in
    insert_session tok now >>
    ret (TokenBody tok).

Definition get_daily_reset_settings (request : request) : M body :=
  require_admin_auth request >>
  let! vip_quota := get_setting "daily_reset_quota_vip" "1000000" in
  let! default_quota := get_setting "daily_reset_quota_default" "50000" in
  let! v := py_int vip_quota in
  let! d := py_int default_quota in
  ret (SettingsBody v d).

Definition set_daily_reset_settings (payload : DailyResetSettingsPayload.t)
  (request : request) : M body :=
  require_admin_auth request >>
  if (DailyResetSettingsPayload.vip_quota payload <? 0)%Z
     || (DailyResetSettingsPayload.default_quota payload <? 0)%Z
  then raise (HTTPException 400 "Quota cannot be negative")
  else
    set_setting "daily_reset_quota_vip"
      (Py.str (DailyResetSettingsPayload.vip_quota payload)) >>
    set_setting "daily_reset_quota_default"
      (Py.str (DailyResetSettingsPayload.default_quota payload)) >>
    ret (OkMessageBody "Settings saved successfully.").

Definition trigger_daily_reset_now (request : request) : M body :=
  require_admin_auth request >>
  daily_reset "manual" >>
  ret (OkMessageBody "Immediate reset task has been triggered successfully.").

Definition get_user_info (user_id : Z) (request : request) : M body :=
  require_admin_auth request >>
  let! u := get_user_by_id user_id in
  ret (UserBody u).

Definition update_user_group_api (payload : UserGroupUpdatePayload.t)
  (request : request) : M body :=
  require_admin_auth request >>
  update_user_group (UserGroupUpdatePayload.user_id payload)
                    (UserGroupUpdatePayload.group payload) >>
  ret OkBody.

Definition increment_quota_api (payload : UserQuotaUpdatePayload.t)
  (request : request) : M body :=
  require_admin_auth request >>
  increment_user_quota (UserQuotaUpdatePayload.user_id payload)
                       (UserQuotaUpdatePayload.delta payload) >>
  ret OkBody.

Definition reset_quota_api (payload : UserQuotaResetPayload.t)
  (request : request) : M body :=
  require_admin_auth request >>
  reset_user_quota (UserQuotaResetPayload.user_id payload)
                   (UserQuotaResetPayload.quota payload) >>
  ret OkBody.

(** The routes that call [require_admin_auth], each with the arguments
    the framework hands to its handler. *)
Inductive protected_call :=
| GetDailyResetSettings
| SetDailyResetSettings (payload : DailyResetSettingsPayload.t)
| TriggerDailyResetNow
| GetUserInfo (user_id : Z)
| UpdateUserGroupApi (payload : UserGroupUpdatePayload.t)
| IncrementQuotaApi (payload : UserQuotaUpdatePayload.t)
| ResetQuotaApi (payload : UserQuotaResetPayload.t).

Definition serve (c : protected_call) (request : request) : M body :=
  match c with
  | GetDailyResetSettings => get_daily_reset_settings request
  | SetDailyResetSettings payload => set_daily_reset_settings payload request
  | TriggerDailyResetNow => trigger_daily_reset_now request
  | GetUserInfo user_id => get_user_info user_id request
  | UpdateUserGroupApi payload => update_user_group_api payload request
  | IncrementQuotaApi payload => increment_quota_api payload request
  | ResetQuotaApi payload => reset_quota_api payload request
  end.

(** ** Histories *)

(** What can happen to the service: a login attempt, a call of a
    protected route, or the scheduler firing the job. *)
Inductive event :=
| Login (payload : AdminLoginPayload.t) (rnd : nat -> Byte.byte) (now : string)
| Call (c : protected_call) (request : request)
| Cron.

(** One event: the world it leaves and the token it issued, if any. *)
Definition step (ADMIN_PASSWORD : string) (e : event) (w : world)
  : world * option string :=
  match e with
  | Login payload rnd now =>
      match admin_login ADMIN_PASSWORD payload rnd now w with
      | (Ok (TokenBody tok), w') => (w', Some tok)
      | (_, w') => (w', None)
      end
  | Call c request => (snd (serve c request w), None)
  | Cron => (snd (daily_reset "scheduled" w), None)
  end.

(** A history of events: the final world and the tokens issued. *)
Fixpoint run (ADMIN_PASSWORD : string) (es : list event) (w : world)
  : world * list string :=
  match es with
  | [] => (w, [])
  | e :: r =>
      let (w1, issued) := step ADMIN_PASSWORD e w in
      let (w2, later) := run ADMIN_PASSWORD r w1 in
      (w2, match issued with
           | Some tok => tok :: later
           | None => later
           end)
  end.

(** ** Vocabulary of the statements *)

(** A computation keeps a relation when the world it leaves is related
    to the one it found, whether it returns or raises. *)
Definition keeps (R : world -> world -> Prop) {A} (m : M A) : Prop :=
  forall w, R w (snd (m w)).

Definition same_sessions (w w' : world) : Prop := sessions w' = sessions w.
Definition same_settings (w w' : world) : Prop := settings w' = settings w.
Definition same_users (w w' : world) : Prop := users w' = users w.

(** Row by row, a soft-deleted row is what it was. *)
Definition deleted_rows_kept (t t' : list user_row) : Prop :=
  Forall2 (fun u u' => live u = false -> u' = u) t t'.
Definition same_deleted (w w' : world) : Prop :=
  deleted_rows_kept (users w) (users w').

(** The world after one update transaction went through. *)
Definition committed (q : pg_stmt) (w : world) : world :=
  set_users (fst (pg_run q (users w)))
    (record PgCommit (record (PgExecute q) (record PgConnect w))).

(** The text [get_setting key default] returns in [w]. *)
Definition setting_or (key default : string) (w : world) : string :=
  match settings w !! key with
  | Some value => value
  | None => default
  end.

(** The rows the job selects. *)
Definition candidates (t : list user_row) : list user_row :=
  snd (pg_run (SelectByGroups "vip" "default") t).

(** The quota the job gives to a user of group [g]. *)
Definition quota_for (V D : Z) (g : string) : Z :=
  if String.eqb g "vip" then V else D.

(** The body of the job's loop, with the two quotas as parameters. *)
Definition reset_line (V D : Z) (c : user_row) : log_line :=
  LogReset (Py.upper (group c)) (uid c) (quota_for V D (group c)).

Definition loop_body (V D : Z) (user_row : user_row) : M unit :=
  reset_user_quota (uid user_row) (quota_for V D (group user_row)) >>
  print (reset_line V D user_row).

(** What one turn of the loop, for candidate [c], does to the table and
    to one row of it. *)
Definition reset_step (V D : Z) (t : list user_row) (c : user_row)
  : list user_row :=
  update_where (selected (uid c)) (with_quota_reset (quota_for V D (group c))) t.

Definition reset_in_row (V D : Z) (u c : user_row) : user_row :=
  if selected (uid c) u
  then with_quota_reset (quota_for V D (group c)) u
  else u.

(** What a complete run of the job does to one row. *)
Definition reset_row (V D : Z) (u : user_row) : user_row :=
  if in_groups "vip" "default" u
  then with_quota_reset (quota_for V D (group u)) u
  else u.

(** ** A small instance *)

Definition alice : user_row := mk_user 1 "alice" "Alice" "vip" 0 5 None.
Definition bob : user_row := mk_user 2 "bob" "Bob" "default" 0 6 None.
Definition carol : user_row := mk_user 3 "carol" "Carol" "enterprise" 0 7 None.
Definition dave : user_row :=
  mk_user 4 "dave" "Dave" "vip" 9 8 (Some "2024-05-01T10:00:00").

Definition demo_settings : gmap string string :=
  <["daily_reset_quota_vip" := "100000"]>
    (<["daily_reset_quota_default" := "20000"]> ∅).

Definition demo_world : world :=
  mk_world [mk_session 1 "00ff" "2024-05-01T09:00:00"] demo_settings
           [alice; bob; carol; dave] [] [] [].

(** A random source: four bytes, then zeros. *)
Definition demo_rnd (i : nat) : Byte.byte :=
  nth i [Byte.xde; Byte.xad; Byte.xbe; Byte.xef] Byte.x00.

(** A group text with the NUL character in it. *)
Definition nul_group : string := String "v" (String Ascii.zero "ip").

(** The request that carries [tok] as bearer token. *)
Definition bearer (tok : string) : request :=
  mk_request (Some ("Bearer " ++ tok)).

Definition demo_request : request := bearer "00ff".

(** The two reset quotas can be read from the settings of [w], and are
    not negative. *)
Definition quotas_readable (w : world) : Prop :=
  exists V D,
    Py.int (setting_or "daily_reset_quota_vip" "1000000" w) = Some V /\
    Py.int (setting_or "daily_reset_quota_default" "50000" w) = Some D /\
    0 <= V /\ 0 <= D.

(** The quota the loop leaves to the live rows with id [id]: the one of
    the last candidate with that id, if there is one; [acc] is what the
    turns before left. *)
Definition last_quota (V D : Z) (acc : option Z) (cands : list user_row)
  (id : Z) : option Z :=
  fold_left (fun acc c =>
               if (uid c =? id)%Z then Some (quota_for V D (group c)) else acc)
            cands acc.

Definition give_quota (q : option Z) (u : user_row) : user_row :=
  match q with
  | Some new_quota => if live u then with_quota_reset new_quota u else u
  | None => u
  end.

(** What a complete run of the job does to one row of table [t], ids
    unique or not. *)
Definition job_row (V D : Z) (t : list user_row) (u : user_row) : user_row :=
  give_quota (last_quota V D None (candidates t) (uid u)) u.

(** ** Configuration *)

(** [os.getenv(key, default)], on the environment of the process. *)
Definition getenv (env : gmap string string) (key default : string)
  : string :=
  match env !! key with
  | Some value => value
  | None => default
  end.

Definition ADMIN_PASSWORD (env : gmap string string) : string :=
  getenv env "ADMIN_PASSWORD" "admin123".

(** ** The three updates, as one family *)

(** A call of [update_user_group], [increment_user_quota] or
    [reset_user_quota]. *)
Inductive mutation :=
| SetGroup (user_id : Z) (g : string)
| AddQuota (user_id delta : Z)
| ResetQuota (user_id new_quota : Z).

Definition mutate (m : mutation) : M unit :=
  match m with
  | SetGroup user_id g => update_user_group user_id g
  | AddQuota user_id delta => increment_user_quota user_id delta
  | ResetQuota user_id new_quota => reset_user_quota user_id new_quota
  end.

(** The id a call is about, and what its statement does to a row it
    selects. *)
Definition target (m : mutation) : Z :=
  match m with
  | SetGroup user_id _ | AddQuota user_id _ | ResetQuota user_id _ => user_id
  end.

Definition effect (m : mutation) (u : user_row) : user_row :=
  match m with
  | SetGroup _ g => with_group g u
  | AddQuota _ delta => with_quota_added delta u
  | ResetQuota _ new_quota => with_quota_reset new_quota u
  end.

(** The table after the call's statement. *)
Definition mutated (m : mutation) (t : list user_row) : list user_row :=
  update_where (selected (target m)) (effect m) t.

(** The statement the call sends, whether the driver takes its
    parameters, and the table the call then leaves on a server that
    answers. *)
Definition statement (m : mutation) : pg_stmt :=
  match m with
  | SetGroup user_id g => UpdateGroup g user_id
  | AddQuota user_id delta => UpdateIncrement delta user_id
  | ResetQuota user_id new_quota => UpdateResetQuota new_quota user_id
  end.

Definition accepted (m : mutation) : bool := quotable (statement m).

Definition applied (m : mutation) (t : list user_row) : list user_row :=
  if accepted m then mutated m t else t.

(** ** More vocabulary *)

(** [u'] is [u] up to the columns the job writes. *)
Definition same_identity (u u' : user_row) : Prop :=
  uid u' = uid u /\ username u' = username u /\
  display_name u' = display_name u /\ group u' = group u /\
  deleted_at u' = deleted_at u.

Definition rows_related (P : user_row -> user_row -> Prop) (w w' : world)
  : Prop :=
  Forall2 P (users w) (users w').

(** The hexadecimal digits [bytes.hex] writes. *)
Definition is_hex_digit (c : ascii) : bool :=
  existsb (Ascii.eqb c) (list_ascii_of_string "0123456789abcdef").

(** The route that makes the call. *)
Definition route_of (m : mutation) : protected_call :=
  match m with
  | SetGroup user_id g =>
      UpdateUserGroupApi (UserGroupUpdatePayload.mk user_id g)
  | AddQuota user_id delta =>
      IncrementQuotaApi (UserQuotaUpdatePayload.mk user_id delta)
  | ResetQuota user_id new_quota =>
      ResetQuotaApi (UserQuotaResetPayload.mk user_id new_quota)
  end.

(** A quota text that is no numeral for [int]: the digit 5 between the
    separators 28 and 31, which [str.strip] would drop. *)
Definition padded_quota : string :=
  String (ascii_of_nat 28) (String "5" (String (ascii_of_nat 31) "")).

(** The small instance with that text as VIP quota, and with a server
    that refuses its sixth interaction. *)
Definition unreadable_world : world :=
  set_settings (<["daily_reset_quota_vip" := padded_quota]> ∅) demo_world.

Definition interrupted_world : world := set_pg_faults [5%nat] demo_world.

(** ** [int] reads back what [str] writes *)

Lemma parse_digits_acc d : forall acc,
  Py.parse_digits (Z.pos acc) true
    (list_ascii_of_string (NilEmpty.string_of_uint d))
  = Some (Z.pos (Pos.of_uint_acc d acc)).
Proof.
  induction d; intros acc; cbn [NilEmpty.string_of_uint list_ascii_of_string
    Py.parse_digits Pos.of_uint_acc]; [reflexivity|..];
    match goal with
    | |- context [Py.digit_val ?c] =>
        change (Py.digit_val c) with (Some (Z.of_nat (nat_of_ascii c) - 48))
    end;
    cbv beta iota; rewrite <- IHd; f_equal;
    match goal with
    | |- context [Z.of_nat ?n] =>
        let v := eval vm_compute in (Z.of_nat n) in
        change (Z.of_nat n) with v
    end; lia.
Qed.

Lemma parse_digits_zero d :
  Py.parse_digits 0 true (list_ascii_of_string (NilEmpty.string_of_uint d))
  = Some (Z.of_N (Pos.of_uint d)).
Proof.
  induction d; cbn [NilEmpty.string_of_uint list_ascii_of_string
    Py.parse_digits Pos.of_uint]; [reflexivity|exact IHd|..];
    apply parse_digits_acc.
Qed.

Lemma parse_digits_flag d acc :
  d <> Nil ->
  Py.parse_digits acc false (list_ascii_of_string (NilEmpty.string_of_uint d))
  = Py.parse_digits acc true (list_ascii_of_string (NilEmpty.string_of_uint d)).
Proof. destruct d; [contradiction|reflexivity..]. Qed.

Lemma digits_no_space d :
  Forall (fun c => Py.is_space c = false)
         (list_ascii_of_string (NilEmpty.string_of_uint d)).
Proof. induction d; cbn; constructor; auto. Qed.

Lemma lstrip_id l :
  Forall (fun c => Py.is_space c = false) l -> Py.lstrip l = l.
Proof. intros [|c r Hc _]; cbn; [reflexivity|]. rewrite Hc. reflexivity. Qed.

Lemma strip_id l :
  Forall (fun c => Py.is_space c = false) l -> Py.strip l = l.
Proof.
  intros H. unfold Py.strip. rewrite (lstrip_id l H), lstrip_id.
  - apply rev_involutive.
  - apply Forall_rev, H.
Qed.

Lemma int_of_digits d :
  d <> Nil ->
  Py.int (NilEmpty.string_of_uint d) = Some (Z.of_N (Pos.of_uint d)).
Proof.
  intros Hd. unfold Py.int. rewrite (strip_id _ (digits_no_space d)).
  rewrite <- parse_digits_zero, <- (parse_digits_flag d 0 Hd).
  destruct d; [contradiction|reflexivity..].
Qed.

Lemma int_of_minus_digits d :
  d <> Nil ->
  Py.int (String "-" (NilEmpty.string_of_uint d))
  = Some (- Z.of_N (Pos.of_uint d)).
Proof.
  intros Hd. unfold Py.int. rewrite strip_id.
  - cbn [list_ascii_of_string]. change (Ascii.eqb "-" "-") with true.
    cbv iota. rewrite (parse_digits_flag d 0 Hd), parse_digits_zero.
    reflexivity.
  - cbn [list_ascii_of_string]. constructor;
      [reflexivity|apply digits_no_space].
Qed.

Lemma string_of_uint_nonnil d :
  d <> Nil -> NilZero.string_of_uint d = NilEmpty.string_of_uint d.
Proof. destruct d; [contradiction|reflexivity..]. Qed.

Lemma int_str z : Py.int (Py.str z) = Some z.
Proof.
  destruct z as [|p|p]; unfold Py.str;
    cbn [Z.to_int NilZero.string_of_int]; [reflexivity|..];
    rewrite (string_of_uint_nonnil _ (DecimalPos.Unsigned.to_uint_nonnil p)).
  - rewrite (int_of_digits _ (DecimalPos.Unsigned.to_uint_nonnil p)), DecimalPos.Unsigned.of_to.
    reflexivity.
  - rewrite (int_of_minus_digits _ (DecimalPos.Unsigned.to_uint_nonnil p)),
      DecimalPos.Unsigned.of_to.
    reflexivity.
Qed.

(** * Properties *)

(** ** The Python primitives on examples *)

Example py_int_default : Py.int "1000000" = Some 1000000.
Proof. reflexivity. Qed.

Example py_int_forms :
  Py.int " -1_000 " = Some (-1000) /\ Py.int "+7" = Some 7 /\
  Py.int "" = None /\ Py.int "1__0" = None /\ Py.int "12a" = None /\
  Py.int "- 5" = None /\ Py.int "5_" = None.
Proof. repeat split. Qed.

(** Whitespace for [int]: a tab before and a line feed after are
    dropped; the separators 28 to 31 are not, and neither is NUL. *)
Example py_int_whitespace :
  Py.int (String (ascii_of_nat 9) (String "5" (String (ascii_of_nat 10) "")))
  = Some 5 /\
  Py.int padded_quota = None /\
  Py.int (String (ascii_of_nat 28) "5") = None /\
  Py.int (String "5" (String (ascii_of_nat 31) "")) = None /\
  Py.int (String "5" (String Ascii.zero "")) = None.
Proof. repeat split. Qed.

Example py_str_forms :
  Py.str 0 = "0" /\ Py.str 50000 = "50000" /\ Py.str (-12) = "-12".
Proof. repeat split. Qed.

Example py_upper_forms :
  Py.upper "vip" = "VIP" /\ Py.upper "default" = "DEFAULT" /\
  Py.upper "Tier-2 x" = "TIER-2 X".
Proof. repeat split. Qed.

Example py_urandom_form :
  length (Py.urandom demo_rnd 16) = 16%nat /\
  Py.hex (Py.urandom demo_rnd 16) = "deadbeef000000000000000000000000".
Proof. repeat split. Qed.

(** What the driver refuses. *)
Example quotable_forms :
  quotable (UpdateGroup "vip" 1) = true /\
  quotable (UpdateGroup nul_group 1) = false /\
  quotable (SelectByGroups "vip" "default") = true /\
  quotable (UpdateIncrement (-5) 1) = true.
Proof. repeat split. Qed.

Example py_hex_form :
  Py.hex [Byte.x00; Byte.x0f; Byte.xa7; Byte.xff] = "000fa7ff".
Proof. reflexivity. Qed.

Example py_slice_form :
  Py.slice_from 7 "Bearer abc" = "abc" /\ Py.slice_from 7 "Bear" = "".
Proof. split; reflexivity. Qed.

(** ** Frames: what a computation leaves related, whatever happens *)

Section Frame.
Variable R : world -> world -> Prop.
Hypothesis R_refl : forall w, R w w.
Hypothesis R_trans : forall a b c, R a b -> R b c -> R a c.

Lemma keeps_ret {A} (a : A) : keeps R (ret a).
Proof. intros w. apply R_refl. Qed.

Lemma keeps_raise {A} (e : exn) : keeps R (@raise A e).
Proof. intros w. apply R_refl. Qed.

Lemma keeps_bind {A B} (m : M A) (k : A -> M B) :
  keeps R m -> (forall a, keeps R (k a)) -> keeps R (bind m k).
Proof.
  intros Hm Hk w. unfold bind. specialize (Hm w).
  destruct (m w) as [[a|e] w1]; cbn in *; [|exact Hm].
  eapply R_trans; [exact Hm | apply Hk].
Qed.

Lemma keeps_try_except {A} (m : M A) (h : exn -> M A) :
  keeps R m -> (forall e, keeps R (h e)) -> keeps R (try_except m h).
Proof.
  intros Hm Hh w. unfold try_except. specialize (Hm w).
  destruct (m w) as [[a|e] w1]; cbn in *; [exact Hm|].
  eapply R_trans; [exact Hm | apply Hh].
Qed.

Lemma keeps_try_finally {A} (m : M A) (f : M unit) :
  keeps R m -> keeps R f -> keeps R (try_finally m f).
Proof.
  intros Hm Hf w. unfold try_finally. specialize (Hm w).
  destruct (m w) as [[a|e] w1]; cbn in *; specialize (Hf w1);
    destruct (f w1) as [[?|?] w2]; cbn in *; eapply R_trans; eauto.
Qed.

Lemma keeps_for_each {A} (xs : list A) (body : A -> M unit) :
  (forall x, keeps R (body x)) -> keeps R (for_each xs body).
Proof.
  intros Hb. induction xs as [|x r IH]; cbn.
  - apply keeps_ret.
  - apply keeps_bind; [apply Hb | intros _; exact IH].
Qed.

Lemma keeps_match_option {A B} (o : option A) (n : M B) (s : A -> M B) :
  keeps R n -> (forall a, keeps R (s a)) ->
  keeps R (match o with Some a => s a | None => n end).
Proof. destruct o; auto. Qed.

Lemma keeps_if {A} (b : bool) (m1 m2 : M A) :
  keeps R m1 -> keeps R m2 -> keeps R (if b then m1 else m2).
Proof. destruct b; auto. Qed.
End Frame.

Lemma same_sessions_refl w : same_sessions w w.
Proof. reflexivity. Qed.
Lemma same_sessions_trans a b c :
  same_sessions a b -> same_sessions b c -> same_sessions a c.
Proof. unfold same_sessions. congruence. Qed.
Lemma same_settings_refl w : same_settings w w.
Proof. reflexivity. Qed.
Lemma same_settings_trans a b c :
  same_settings a b -> same_settings b c -> same_settings a c.
Proof. unfold same_settings. congruence. Qed.
Lemma same_users_refl w : same_users w w.
Proof. reflexivity. Qed.
Lemma same_users_trans a b c :
  same_users a b -> same_users b c -> same_users a c.
Proof. unfold same_users. congruence. Qed.

Create HintDb frame.

#[local] Hint Resolve same_sessions_refl same_sessions_trans
  same_settings_refl same_settings_trans
  same_users_refl same_users_trans : frame.

Ltac base_frame :=
  intros [ss st us fs j out];
  repeat match goal with
         | |- context [pg_interact] => unfold pg_interact
         | |- context [bind] => unfold bind
         | |- context [ret] => unfold ret
         end;
  cbn; try (destruct fs as [|[|?] ?]); reflexivity.

Lemma pg_interact_sessions s : keeps same_sessions (pg_interact s).
Proof. base_frame. Qed.
Lemma pg_interact_settings s : keeps same_settings (pg_interact s).
Proof. base_frame. Qed.
Lemma pg_interact_users s : keeps same_users (pg_interact s).
Proof. base_frame. Qed.

Lemma print_sessions l : keeps same_sessions (print l).
Proof. base_frame. Qed.
Lemma print_settings l : keeps same_settings (print l).
Proof. base_frame. Qed.
Lemma print_users l : keeps same_users (print l).
Proof. base_frame. Qed.

Lemma py_int_keeps R s : (forall w, R w w) -> keeps R (py_int s).
Proof. intros HR w. unfold py_int. destruct (Py.int s); apply HR. Qed.

Lemma select_session_sessions t : keeps same_sessions (select_session t).
Proof. base_frame. Qed.
Lemma select_session_settings t : keeps same_settings (select_session t).
Proof. base_frame. Qed.
Lemma select_session_users t : keeps same_users (select_session t).
Proof. base_frame. Qed.

Lemma get_setting_sessions k d : keeps same_sessions (get_setting k d).
Proof. base_frame. Qed.
Lemma get_setting_settings k d : keeps same_settings (get_setting k d).
Proof. base_frame. Qed.
Lemma get_setting_users k d : keeps same_users (get_setting k d).
Proof. base_frame. Qed.

Lemma set_setting_sessions k v : keeps same_sessions (set_setting k v).
Proof. base_frame. Qed.
Lemma set_setting_users k v : keeps same_users (set_setting k v).
Proof. base_frame. Qed.

Lemma insert_session_settings t c : keeps same_settings (insert_session t c).
Proof. base_frame. Qed.
Lemma insert_session_users t c : keeps same_users (insert_session t c).
Proof. base_frame. Qed.

Lemma postgres_conn_sessions : keeps same_sessions postgres_conn.
Proof. unfold postgres_conn. base_frame. Qed.
Lemma postgres_conn_settings : keeps same_settings postgres_conn.
Proof. unfold postgres_conn. base_frame. Qed.
Lemma postgres_conn_users : keeps same_users postgres_conn.
Proof. unfold postgres_conn. base_frame. Qed.

Lemma execute_sessions c q : keeps same_sessions (execute c q).
Proof.
  unfold execute. destruct (quotable q); [|intros w; reflexivity].
  destruct (pg_run q (pending c)). base_frame.
Qed.
Lemma execute_settings c q : keeps same_settings (execute c q).
Proof.
  unfold execute. destruct (quotable q); [|intros w; reflexivity].
  destruct (pg_run q (pending c)). base_frame.
Qed.
Lemma execute_users c q : keeps same_users (execute c q).
Proof.
  unfold execute. destruct (quotable q); [|intros w; reflexivity].
  destruct (pg_run q (pending c)). base_frame.
Qed.

Lemma commit_sessions c : keeps same_sessions (commit c).
Proof. unfold commit. base_frame. Qed.
Lemma commit_settings c : keeps same_settings (commit c).
Proof. unfold commit. base_frame. Qed.

#[local] Hint Resolve pg_interact_sessions pg_interact_settings
  pg_interact_users print_sessions print_settings print_users py_int_keeps
  select_session_sessions select_session_settings select_session_users
  get_setting_sessions get_setting_settings get_setting_users
  set_setting_sessions set_setting_users
  insert_session_settings insert_session_users
  postgres_conn_sessions postgres_conn_settings postgres_conn_users
  execute_sessions execute_settings execute_users
  commit_sessions commit_settings : frame.

Ltac frame :=
  repeat (intros;
          match goal with
          | |- keeps _ (bind _ _) => apply keeps_bind
          | |- keeps _ (ret _) => apply keeps_ret
          | |- keeps _ (raise _) => apply keeps_raise
          | |- keeps _ (close _) => apply keeps_ret
          | |- keeps _ (try_finally _ _) => apply keeps_try_finally
          | |- keeps _ (try_except _ _) => apply keeps_try_except
          | |- keeps _ (for_each _ _) => apply keeps_for_each
          | |- keeps _ (let (_, _) := ?a in _) => destruct a
          | |- keeps _ (match ?o with Some _ => _ | None => _ end) =>
              destruct o
          | |- keeps _ (if ?b then _ else _) => destruct b
          end);
  eauto with frame.

Lemma require_admin_auth_sessions r : keeps same_sessions (require_admin_auth r).
Proof. unfold require_admin_auth. frame. Qed.
Lemma require_admin_auth_settings r : keeps same_settings (require_admin_auth r).
Proof. unfold require_admin_auth. frame. Qed.
Lemma require_admin_auth_users r : keeps same_users (require_admin_auth r).
Proof. unfold require_admin_auth. frame. Qed.

Lemma reset_user_quota_sessions i q : keeps same_sessions (reset_user_quota i q).
Proof. unfold reset_user_quota. frame. Qed.
Lemma reset_user_quota_settings i q : keeps same_settings (reset_user_quota i q).
Proof. unfold reset_user_quota. frame. Qed.
Lemma update_user_group_sessions i g : keeps same_sessions (update_user_group i g).
Proof. unfold update_user_group. frame. Qed.
Lemma update_user_group_settings i g : keeps same_settings (update_user_group i g).
Proof. unfold update_user_group. frame. Qed.
Lemma increment_user_quota_sessions i d : keeps same_sessions (increment_user_quota i d).
Proof. unfold increment_user_quota. frame. Qed.
Lemma increment_user_quota_settings i d : keeps same_settings (increment_user_quota i d).
Proof. unfold increment_user_quota. frame. Qed.
Lemma get_user_by_id_sessions i : keeps same_sessions (get_user_by_id i).
Proof. unfold get_user_by_id. frame. Qed.
Lemma get_user_by_id_settings i : keeps same_settings (get_user_by_id i).
Proof. unfold get_user_by_id. frame. Qed.
Lemma get_user_by_id_users i : keeps same_users (get_user_by_id i).
Proof. unfold get_user_by_id. frame. Qed.

#[local] Hint Resolve require_admin_auth_sessions require_admin_auth_settings
  require_admin_auth_users reset_user_quota_sessions reset_user_quota_settings
  update_user_group_sessions update_user_group_settings
  increment_user_quota_sessions increment_user_quota_settings
  get_user_by_id_sessions get_user_by_id_settings get_user_by_id_users : frame.

Lemma daily_reset_sessions t : keeps same_sessions (daily_reset t).
Proof. unfold daily_reset, daily_reset_body. frame. Qed.
Lemma daily_reset_settings t : keeps same_settings (daily_reset t).
Proof. unfold daily_reset, daily_reset_body. frame. Qed.

#[local] Hint Resolve daily_reset_sessions daily_reset_settings : frame.

Lemma serve_sessions c r : keeps same_sessions (serve c r).
Proof.
  destruct c; cbn;
    unfold get_daily_reset_settings, set_daily_reset_settings,
      trigger_daily_reset_now, get_user_info, update_user_group_api,
      increment_quota_api, reset_quota_api; frame.
Qed.

(** ** One transaction *)

Ltac unfold_pg :=
  unfold reset_user_quota, get_user_by_id, update_user_group,
    increment_user_quota, postgres_conn, execute, commit, close,
    try_finally, bind, ret, raise, pg_interact.

Ltac run_quiet H :=
  unfold_pg; cbn; repeat (rewrite H; cbn); try reflexivity.

Lemma reset_user_quota_quiet w user_id new_quota :
  pg_faults w = [] ->
  reset_user_quota user_id new_quota w
  = (Ok tt, committed (UpdateResetQuota new_quota user_id) w).
Proof. intros H. run_quiet H. Qed.

Lemma update_user_group_quiet w user_id g :
  pg_faults w = [] ->
  has_nul g = false ->
  update_user_group user_id g w = (Ok tt, committed (UpdateGroup g user_id) w).
Proof.
  intros H Hg. unfold update_user_group, execute. cbn [quotable].
  rewrite Hg. run_quiet H.
Qed.

(** A group text the driver refuses: the connection is made, nothing
    else is sent. *)
Lemma update_user_group_refused w user_id g :
  pg_faults w = [] ->
  has_nul g = true ->
  update_user_group user_id g w = (Raise ValueError, record PgConnect w).
Proof.
  intros H Hg. unfold update_user_group, execute. cbn [quotable].
  rewrite Hg. run_quiet H.
Qed.

Lemma increment_user_quota_quiet w user_id delta :
  pg_faults w = [] ->
  increment_user_quota user_id delta w
  = (Ok tt, committed (UpdateIncrement delta user_id) w).
Proof. intros H. run_quiet H. Qed.

Lemma get_user_by_id_quiet w user_id :
  pg_faults w = [] ->
  get_user_by_id user_id w
  = (match List.find (selected user_id) (users w) with
     | Some row => Ok (dict row)
     | None => Raise (HTTPException 404 "User not found or has been deleted")
     end,
     record (PgExecute (SelectUser user_id)) (record PgConnect w)).
Proof.
  intros H. run_quiet H.
  induction (users w) as [|u t IH]; cbn; [reflexivity|].
  destruct (selected user_id u); cbn; [reflexivity|exact IH].
Qed.

Lemma committed_faults q w : pg_faults (committed q w) = pg_faults w.
Proof. reflexivity. Qed.

Lemma committed_users q w : users (committed q w) = fst (pg_run q (users w)).
Proof. reflexivity. Qed.

(** Whatever the server does, an update function leaves the table as it
    was or as its one statement makes it. *)
Ltac any_faults w :=
  destruct w as [ss st us fs j out]; unfold_pg; cbn;
  destruct fs as [|[|[|[|?]]] ?]; cbn; auto.

Lemma reset_user_quota_any w user_id new_quota :
  users (snd (reset_user_quota user_id new_quota w)) = users w \/
  users (snd (reset_user_quota user_id new_quota w))
  = fst (pg_run (UpdateResetQuota new_quota user_id) (users w)).
Proof. any_faults w. Qed.

Lemma update_user_group_any w user_id g :
  users (snd (update_user_group user_id g w)) = users w \/
  users (snd (update_user_group user_id g w))
  = fst (pg_run (UpdateGroup g user_id) (users w)).
Proof.
  unfold update_user_group, execute. cbn [quotable].
  destruct (has_nul g); cbn [negb]; any_faults w.
Qed.

Lemma increment_user_quota_any w user_id delta :
  users (snd (increment_user_quota user_id delta w)) = users w \/
  users (snd (increment_user_quota user_id delta w))
  = fst (pg_run (UpdateIncrement delta user_id) (users w)).
Proof. any_faults w. Qed.

(** ** Soft-deleted rows *)

Lemma deleted_rows_kept_refl t : deleted_rows_kept t t.
Proof. induction t; constructor; auto. Qed.

Lemma deleted_rows_kept_trans a b c :
  deleted_rows_kept a b -> deleted_rows_kept b c -> deleted_rows_kept a c.
Proof.
  intros Hab. revert c. induction Hab as [|x y l k Hxy _ IH]; intros c Hbc.
  - inversion Hbc. constructor.
  - inversion Hbc as [|y' z k' m Hyz Hkm]; subst. constructor.
    + intros Hx. specialize (Hxy Hx). subst y. apply Hyz, Hx.
    + apply IH, Hkm.
Qed.

Lemma same_deleted_refl w : same_deleted w w.
Proof. apply deleted_rows_kept_refl. Qed.

Lemma same_deleted_trans a b c :
  same_deleted a b -> same_deleted b c -> same_deleted a c.
Proof. apply deleted_rows_kept_trans. Qed.

Lemma selected_live user_id u : selected user_id u = true -> live u = true.
Proof. unfold selected. intros H. apply andb_true_iff in H. tauto. Qed.

Lemma update_where_deleted user_id f t :
  deleted_rows_kept t (update_where (selected user_id) f t).
Proof.
  induction t as [|u t IH]; cbn; constructor; auto.
  intros Hd. destruct (selected user_id u) eqn:E; [|reflexivity].
  apply selected_live in E. congruence.
Qed.

Lemma pg_run_deleted q t : deleted_rows_kept t (fst (pg_run q t)).
Proof.
  destruct q; cbn;
    auto using update_where_deleted, deleted_rows_kept_refl.
Qed.

Lemma keeps_users_deleted {A} (m : M A) :
  keeps same_users m -> keeps same_deleted m.
Proof.
  intros H w. unfold same_deleted. rewrite (H w).
  apply deleted_rows_kept_refl.
Qed.

Lemma reset_user_quota_deleted i q : keeps same_deleted (reset_user_quota i q).
Proof.
  intros w. unfold same_deleted.
  destruct (reset_user_quota_any w i q) as [-> | ->];
    auto using pg_run_deleted, deleted_rows_kept_refl.
Qed.

Lemma update_user_group_deleted i g : keeps same_deleted (update_user_group i g).
Proof.
  intros w. unfold same_deleted.
  destruct (update_user_group_any w i g) as [-> | ->];
    auto using pg_run_deleted, deleted_rows_kept_refl.
Qed.

Lemma increment_user_quota_deleted i d :
  keeps same_deleted (increment_user_quota i d).
Proof.
  intros w. unfold same_deleted.
  destruct (increment_user_quota_any w i d) as [-> | ->];
    auto using pg_run_deleted, deleted_rows_kept_refl.
Qed.

#[local] Hint Resolve same_deleted_refl same_deleted_trans
  reset_user_quota_deleted update_user_group_deleted
  increment_user_quota_deleted : frame.
#[local] Hint Extern 5 (keeps same_deleted _) =>
  apply keeps_users_deleted : frame.

Lemma daily_reset_deleted t : keeps same_deleted (daily_reset t).
Proof. unfold daily_reset, daily_reset_body. frame. Qed.

(** ** The job on a server that answers *)

Lemma reset_loop_quiet V D cands : forall w,
  pg_faults w = [] ->
  exists w',
    for_each cands (loop_body V D) w = (Ok tt, w') /\
    pg_faults w' = [] /\
    users w' = fold_left (reset_step V D) cands (users w) /\
    stdout w' = (stdout w ++ map (reset_line V D) cands)%list.
Proof.
  induction cands as [|c r IH]; intros w Hq; cbn.
  - exists w. unfold ret. rewrite app_nil_r. auto.
  - unfold bind at 1. unfold loop_body at 1. unfold bind at 1.
    rewrite reset_user_quota_quiet by exact Hq. cbn.
    edestruct IH as (w' & Hrun & Hf & Hu & Ho); [|exists w'; split; [exact Hrun|]].
    + cbn. exact Hq.
    + cbn in Hu, Ho. rewrite Hu, Ho, <- app_assoc. auto.
Qed.

Lemma daily_reset_quiet trig w V D :
  pg_faults w = [] ->
  Py.int (setting_or "daily_reset_quota_vip" "1000000" w) = Some V ->
  Py.int (setting_or "daily_reset_quota_default" "50000" w) = Some D ->
  exists w',
    daily_reset trig w = (Ok tt, w') /\
    pg_faults w' = [] /\
    users w' = fold_left (reset_step V D) (candidates (users w)) (users w) /\
    stdout w' = (stdout w ++
      [LogStart trig; LogFound (length (candidates (users w)))] ++
      map (reset_line V D) (candidates (users w)) ++ [LogDone])%list.
Proof.
  intros Hq HV HD.
  destruct (reset_loop_quiet V D (candidates (users w))
    (emit (LogFound (length (candidates (users w))))
       (record (PgExecute (SelectByGroups "vip" "default"))
          (record PgConnect
             (record (SelectSetting "daily_reset_quota_default")
                (record (SelectSetting "daily_reset_quota_vip")
                   (emit (LogStart trig) w)))))) Hq)
    as (w1 & Hrun & Hf & Hu & Ho).
  exists (emit LogDone w1).
  unfold daily_reset, daily_reset_body, try_except, print, get_setting,
    py_int, postgres_conn, execute, close, pg_interact.
  unfold setting_or in HV, HD.
  unfold bind, ret. cbn. rewrite HV. cbn. rewrite HD. cbn. rewrite Hq. cbn.
  rewrite Hq. cbn.
  unfold candidates in Hrun. cbn in Hrun.
  change (fun user_row : user_row => _) with (loop_body V D).
  rewrite Hrun. cbn in Hu, Ho |- *.
  repeat split; auto.
  rewrite Ho. unfold candidates. cbn.
  repeat rewrite <- app_assoc. reflexivity.
Qed.


(** ** The table after a complete run *)

Lemma fold_reset_step_rows V D cands : forall t,
  fold_left (reset_step V D) cands t
  = map (fun u => fold_left (reset_in_row V D) cands u) t.
Proof.
  induction cands as [|c r IH]; intros t; cbn.
  - symmetry. apply map_id.
  - rewrite IH. unfold reset_step, update_where. rewrite map_map.
    reflexivity.
Qed.

Lemma reset_in_row_shape V D u c :
  uid (reset_in_row V D u c) = uid u /\
  group (reset_in_row V D u c) = group u /\
  deleted_at (reset_in_row V D u c) = deleted_at u.
Proof. unfold reset_in_row. destruct (selected (uid c) u); auto. Qed.

Lemma fold_reset_in_row V D cands : forall u,
  (forall c, In c cands -> uid c = uid u -> group c = group u) ->
  fold_left (reset_in_row V D) cands u
  = if live u && existsb (fun c => (uid c =? uid u)%Z) cands
    then with_quota_reset (quota_for V D (group u)) u
    else u.
Proof.
  induction cands as [|c r IH]; intros u Hg; cbn.
  - rewrite andb_false_r. reflexivity.
  - destruct (reset_in_row_shape V D u c) as (Hi & Hgr & Hd).
    rewrite IH.
    2:{ intros c' Hc' E. rewrite Hi in E. rewrite Hgr. apply Hg; auto.
        right. exact Hc'. }
    rewrite Hi, Hgr. unfold live at 1. rewrite Hd. fold (live u).
    unfold reset_in_row, selected.
    rewrite (Z.eqb_sym (uid u) (uid c)).
    destruct (uid c =? uid u)%Z eqn:E; cbn.
    + apply Z.eqb_eq in E. rewrite (Hg c (or_introl eq_refl) E).
      destruct (live u); cbn; [|reflexivity].
      match goal with |- context [existsb ?f r] => destruct (existsb f r) end;
        reflexivity.
    + reflexivity.
Qed.

Lemma NoDup_map_inj {A B} (f : A -> B) (l : list A) x y :
  NoDup (map f l) -> In x l -> In y l -> f x = f y -> x = y.
Proof.
  induction l as [|a l IH]; cbn; intros Hnd Hx Hy E; [contradiction|].
  inversion Hnd as [|? ? Hnotin Hnd']; subst.
  destruct Hx as [->|Hx], Hy as [->|Hy]; auto.
  - exfalso. apply Hnotin. rewrite list_elem_of_In, E. apply in_map, Hy.
  - exfalso. apply Hnotin. rewrite list_elem_of_In, <- E. apply in_map, Hx.
Qed.

Lemma in_groups_live g1 g2 u : in_groups g1 g2 u = true -> live u = true.
Proof. unfold in_groups. intros H. apply andb_true_iff in H. tauto. Qed.

Lemma existsb_candidates t u :
  NoDup (map uid t) -> In u t ->
  existsb (fun c => (uid c =? uid u)%Z) (candidates t)
  = in_groups "vip" "default" u.
Proof.
  intros Hnd Hu. unfold candidates. cbn.
  destruct (in_groups "vip" "default" u) eqn:E.
  - apply existsb_exists. exists u. split.
    + apply filter_In. auto.
    + apply Z.eqb_refl.
  - apply not_true_is_false. intros H.
    apply existsb_exists in H as (c & Hc & Eid).
    apply filter_In in Hc as [Hc Hel]. apply Z.eqb_eq in Eid.
    rewrite (NoDup_map_inj uid t c u Hnd Hc Hu Eid) in Hel. congruence.
Qed.

Lemma job_table V D t :
  NoDup (map uid t) ->
  fold_left (reset_step V D) (candidates t) t = map (reset_row V D) t.
Proof.
  intros Hnd. rewrite fold_reset_step_rows.
  apply map_ext_in. intros u Hu.
  rewrite fold_reset_in_row.
  - rewrite (existsb_candidates t u Hnd Hu). unfold reset_row.
    destruct (in_groups "vip" "default" u) eqn:E.
    + rewrite (in_groups_live _ _ _ E). reflexivity.
    + rewrite andb_false_r. reflexivity.
  - intros c Hc E. unfold candidates in Hc. cbn in Hc.
    apply filter_In in Hc as [Hc _].
    rewrite (NoDup_map_inj uid t c u Hnd Hc Hu E). reflexivity.
Qed.

(** With unique ids the table a complete run leaves does not depend on
    the order in which the selected users are visited. *)
Lemma existsb_permuted {A} (f : A -> bool) (l l' : list A) :
  Permutation l l' -> existsb f l = existsb f l'.
Proof.
  intros Hp. destruct (existsb f l') eqn:E.
  - apply existsb_exists in E as (x & Hx & Hf). apply existsb_exists.
    exists x. split; [|exact Hf].
    apply (Permutation_in x (Permutation_sym Hp) Hx).
  - apply not_true_is_false. intros H.
    apply existsb_exists in H as (x & Hx & Hf).
    assert (E' : existsb f l' = true).
    { apply existsb_exists. exists x. split; [|exact Hf].
      apply (Permutation_in x Hp Hx). }
    congruence.
Qed.

Lemma job_table_permuted V D t visited :
  NoDup (map uid t) ->
  Permutation visited (candidates t) ->
  fold_left (reset_step V D) visited t = map (reset_row V D) t.
Proof.
  intros Hnd Hp. rewrite fold_reset_step_rows.
  apply map_ext_in. intros u Hu.
  rewrite fold_reset_in_row.
  - rewrite (existsb_permuted _ _ _ Hp), (existsb_candidates t u Hnd Hu).
    unfold reset_row.
    destruct (in_groups "vip" "default" u) eqn:E.
    + rewrite (in_groups_live _ _ _ E). reflexivity.
    + rewrite andb_false_r. reflexivity.
  - intros c Hc E. apply (Permutation_in c Hp) in Hc.
    unfold candidates in Hc. cbn in Hc.
    apply filter_In in Hc as [Hc _].
    rewrite (NoDup_map_inj uid t c u Hnd Hc Hu E). reflexivity.
Qed.

Lemma reset_row_shape V D u :
  uid (reset_row V D u) = uid u /\
  group (reset_row V D u) = group u /\
  deleted_at (reset_row V D u) = deleted_at u.
Proof. unfold reset_row. destruct (in_groups _ _ u); auto. Qed.

Lemma reset_row_idem V D u : reset_row V D (reset_row V D u) = reset_row V D u.
Proof.
  unfold reset_row at 2 3. destruct (in_groups "vip" "default" u) eqn:E.
  - unfold reset_row, in_groups, live in *. cbn. rewrite E. reflexivity.
  - unfold reset_row. rewrite E. reflexivity.
Qed.

Lemma map_reset_row_uid V D t : map uid (map (reset_row V D) t) = map uid t.
Proof.
  rewrite map_map. apply map_ext. intros u. apply reset_row_shape.
Qed.

(** ** The table after a complete run, ids unique or not *)

Lemma give_quota_shape q u :
  uid (give_quota q u) = uid u /\
  group (give_quota q u) = group u /\
  deleted_at (give_quota q u) = deleted_at u.
Proof. destruct q as [q|]; cbn; [destruct (live u)|]; auto. Qed.

Lemma give_quota_live q u : live (give_quota q u) = live u.
Proof. unfold live. destruct (give_quota_shape q u) as (_ & _ & ->). reflexivity. Qed.

Lemma give_quota_twice q u : give_quota q (give_quota q u) = give_quota q u.
Proof.
  destruct q as [q|]; [|reflexivity]. cbn.
  destruct (live u) eqn:E; [|rewrite E; reflexivity].
  change (live (with_quota_reset q u)) with (live u). rewrite E. reflexivity.
Qed.

Lemma fold_reset_in_row_any V D cands : forall acc u,
  fold_left (reset_in_row V D) cands (give_quota acc u)
  = give_quota (last_quota V D acc cands (uid u)) u.
Proof.
  induction cands as [|c r IH]; intros acc u; [reflexivity|].
  cbn [fold_left last_quota].
  replace (reset_in_row V D (give_quota acc u) c)
    with (give_quota (if (uid c =? uid u)%Z
                      then Some (quota_for V D (group c)) else acc) u).
  - apply IH.
  - unfold reset_in_row, selected.
    destruct (give_quota_shape acc u) as (-> & _ & _).
    rewrite give_quota_live, (Z.eqb_sym (uid u) (uid c)).
    destruct (uid c =? uid u)%Z; cbn [andb]; [|reflexivity].
    destruct (live u) eqn:E.
    + destruct acc as [q|]; cbn; rewrite E; reflexivity.
    + destruct acc as [q|]; cbn; rewrite ?E; reflexivity.
Qed.

Lemma job_table_any V D t :
  fold_left (reset_step V D) (candidates t) t = map (job_row V D t) t.
Proof.
  rewrite fold_reset_step_rows. apply map_ext. intros u.
  apply (fold_reset_in_row_any V D (candidates t) None u).
Qed.

Lemma last_quota_ext V D cs cs' : forall acc id,
  map uid cs' = map uid cs -> map group cs' = map group cs ->
  last_quota V D acc cs' id = last_quota V D acc cs id.
Proof.
  revert cs'. induction cs as [|c r IH]; intros [|c' r'] acc id Hi Hg;
    try discriminate; [reflexivity|].
  cbn in Hi, Hg. injection Hi as Hi1 Hi2. injection Hg as Hg1 Hg2.
  cbn [last_quota fold_left]. rewrite Hi1, Hg1. apply (IH r' _ id Hi2 Hg2).
Qed.

Lemma candidates_map (f : user_row -> user_row) t :
  (forall u, group (f u) = group u /\ deleted_at (f u) = deleted_at u) ->
  candidates (map f t) = map f (candidates t).
Proof.
  intros Hf. unfold candidates. cbn.
  induction t as [|u t IH]; cbn; [reflexivity|].
  assert (E : in_groups "vip" "default" (f u) = in_groups "vip" "default" u).
  { unfold in_groups, live. destruct (Hf u) as [-> ->]. reflexivity. }
  rewrite E. destruct (in_groups "vip" "default" u); cbn; rewrite IH;
    reflexivity.
Qed.

Lemma job_row_shape V D t u :
  uid (job_row V D t u) = uid u /\
  group (job_row V D t u) = group u /\
  deleted_at (job_row V D t u) = deleted_at u.
Proof. apply give_quota_shape. Qed.

Lemma job_table_twice V D t :
  map (job_row V D (map (job_row V D t) t)) (map (job_row V D t) t)
  = map (job_row V D t) t.
Proof.
  rewrite map_map. apply map_ext. intros u. unfold job_row at 1.
  destruct (job_row_shape V D t u) as (Hi & _ & _). rewrite Hi.
  rewrite candidates_map by (intros x; destruct (job_row_shape V D t x); tauto).
  rewrite (last_quota_ext V D (candidates t))
    by (rewrite map_map; apply map_ext; intros x; apply job_row_shape).
  unfold job_row. apply give_quota_twice.
Qed.

(** ** The reset job *)

Lemma lookup_map_reset_row V D (t : list user_row) i u :
  t !! i = Some u -> map (reset_row V D) t !! i = Some (reset_row V D u).
Proof. intros H. change map with (@fmap list _). rewrite list_lookup_fmap, H. reflexivity. Qed.

(** C1.  A run of the reset job on a server that answers, with the VIP
    quota V and the default quota D read from the settings (1,000,000 and
    50,000 when the keys are unset) and user ids unique: every live "vip"
    row ends with quota V and used_quota 0, every live "default" row with
    quota D and used_quota 0, and a row of any other group is unchanged. *)
Theorem daily_reset_assigns_by_group trig w V D :
  pg_faults w = [] ->
  NoDup (map uid (users w)) ->
  Py.int (setting_or "daily_reset_quota_vip" "1000000" w) = Some V ->
  Py.int (setting_or "daily_reset_quota_default" "50000" w) = Some D ->
  (settings w !! "daily_reset_quota_vip" = None -> V = 1000000) /\
  (settings w !! "daily_reset_quota_default" = None -> D = 50000) /\
  exists w',
    daily_reset trig w = (Ok tt, w') /\
    length (users w') = length (users w) /\
    forall i u, users w !! i = Some u ->
      exists u', users w' !! i = Some u' /\
        uid u' = uid u /\ group u' = group u /\
        deleted_at u' = deleted_at u /\
        (deleted_at u = None -> group u = "vip" ->
         quota u' = V /\ used_quota u' = 0) /\
        (deleted_at u = None -> group u = "default" ->
         quota u' = D /\ used_quota u' = 0) /\
        (group u <> "vip" -> group u <> "default" -> u' = u).
Proof.
  intros Hq Hnd HV HD. split; [|split].
  - intros Hn. unfold setting_or in HV. rewrite Hn in HV.
    vm_compute in HV. congruence.
  - intros Hn. unfold setting_or in HD. rewrite Hn in HD.
    vm_compute in HD. congruence.
  - destruct (daily_reset_quiet trig w V D Hq HV HD) as (w' & Hrun & _ & Hu & _).
    rewrite (job_table V D _ Hnd) in Hu.
    exists w'. split; [exact Hrun|]. rewrite Hu. split; [apply length_map|].
    intros i u Hi. exists (reset_row V D u).
    split; [apply lookup_map_reset_row, Hi|].
    destruct (reset_row_shape V D u) as (E1 & E2 & E3).
    do 3 (split; [assumption|]). split; [|split].
    + intros Hl Hg. unfold reset_row, in_groups, live, quota_for.
      rewrite Hl, Hg. split; reflexivity.
    + intros Hl Hg. unfold reset_row, in_groups, live, quota_for.
      rewrite Hl, Hg. split; reflexivity.
    + intros Hv Hd. unfold reset_row, in_groups.
      apply String.eqb_neq in Hv, Hd. rewrite Hv, Hd. reflexivity.
Qed.

Lemma setting_or_same key d w w' :
  settings w' = settings w -> setting_or key d w' = setting_or key d w.
Proof. unfold setting_or. intros ->. reflexivity. Qed.

Lemma daily_reset_bad_settings trig w :
  Py.int (setting_or "daily_reset_quota_vip" "1000000" w) = None \/
  Py.int (setting_or "daily_reset_quota_default" "50000" w) = None ->
  daily_reset trig w
  = (Ok tt,
     emit (LogFailed ValueError)
       (match Py.int (setting_or "daily_reset_quota_vip" "1000000" w) with
        | Some _ =>
            record (SelectSetting "daily_reset_quota_default")
              (record (SelectSetting "daily_reset_quota_vip")
                 (emit (LogStart trig) w))
        | None =>
            record (SelectSetting "daily_reset_quota_vip")
              (emit (LogStart trig) w)
        end)).
Proof.
  unfold setting_or, daily_reset, daily_reset_body, try_except, print,
    get_setting, py_int, bind, ret, raise. cbn.
  destruct (Py.int match settings w !! "daily_reset_quota_vip" with
                   | Some v => v | None => "1000000" end) as [V|] eqn:HV.
  - intros [H|H]; [discriminate|]. cbn. rewrite H. reflexivity.
  - intros _. reflexivity.
Qed.

Lemma daily_reset_bad_settings_users trig w :
  Py.int (setting_or "daily_reset_quota_vip" "1000000" w) = None \/
  Py.int (setting_or "daily_reset_quota_default" "50000" w) = None ->
  users (snd (daily_reset trig w)) = users w.
Proof.
  intros H. rewrite (daily_reset_bad_settings trig w H). cbn.
  destruct (Py.int _); reflexivity.
Qed.

(** C9.  Two runs of the job in a row, on a server that answers: the
    second run leaves the users table exactly as the first one made it,
    so every eligible user's quota and used_quota are what a single run
    produces; neither run changes the settings.  (Ids need not be unique
    for this.) *)
Theorem daily_reset_idempotent trig1 trig2 w :
  pg_faults w = [] ->
  settings (snd (daily_reset trig1 w)) = settings w /\
  users (snd (daily_reset trig2 (snd (daily_reset trig1 w))))
  = users (snd (daily_reset trig1 w)).
Proof.
  intros Hq.
  pose proof (daily_reset_settings trig1 w) as Hs. unfold same_settings in Hs.
  split; [exact Hs|].
  destruct (Py.int (setting_or "daily_reset_quota_vip" "1000000" w))
    as [V|] eqn:HV;
    [destruct (Py.int (setting_or "daily_reset_quota_default" "50000" w))
       as [D|] eqn:HD|].
  - destruct (daily_reset_quiet trig1 w V D Hq HV HD)
      as (w1 & Hrun1 & Hq1 & Hu1 & _).
    rewrite Hrun1 in Hs |- *. cbn [snd] in Hs |- *.
    rewrite job_table_any in Hu1.
    rewrite <- (setting_or_same _ _ _ _ Hs) in HV.
    rewrite <- (setting_or_same _ _ _ _ Hs) in HD.
    destruct (daily_reset_quiet trig2 w1 V D Hq1 HV HD)
      as (w2 & Hrun2 & _ & Hu2 & _).
    rewrite Hrun2. cbn [snd]. rewrite Hu2, job_table_any, Hu1.
    apply job_table_twice.
  - apply daily_reset_bad_settings_users. right.
    rewrite (setting_or_same _ _ _ _ Hs). exact HD.
  - apply daily_reset_bad_settings_users. left.
    rewrite (setting_or_same _ _ _ _ Hs). exact HV.
Qed.

(** C8.  A call of the manual trigger that passes the admin check
    answers with the ok message whatever the server and the settings do;
    the world it answers from is the one the job left, so the job has run
    to its end; the job itself never raises, and when its body raises it
    prints the failure and leaves every store as it was at that point. *)
Theorem trigger_daily_reset_now_always_ok req w w1 :
  require_admin_auth req w = (Ok tt, w1) ->
  trigger_daily_reset_now req w
  = (Ok (OkMessageBody "Immediate reset task has been triggered successfully."),
     snd (daily_reset "manual" w1)) /\
  fst (daily_reset "manual" w1) = Ok tt /\
  (forall e w2,
      daily_reset_body (emit (LogStart "manual") w1) = (Raise e, w2) ->
      snd (daily_reset "manual" w1) = emit (LogFailed e) w2).
Proof.
  intros Hauth.
  assert (Hok : fst (daily_reset "manual" w1) = Ok tt).
  { unfold daily_reset, try_except, bind, print.
    destruct (daily_reset_body (emit (LogStart "manual") w1))
      as [[[]|e] w2]; reflexivity. }
  split; [|split; [exact Hok|]].
  - unfold trigger_daily_reset_now. unfold bind at 1. rewrite Hauth.
    unfold bind, ret. destruct (daily_reset "manual" w1) as [[[]|e] w2];
      cbn in *; [reflexivity|discriminate].
  - intros e w2 Hb. unfold daily_reset, try_except, bind, print.
    rewrite Hb. reflexivity.
Qed.

(** ** The admin check *)

Lemma is_valid_token_iff tok ss :
  is_valid_token tok ss = true <-> exists r, In r ss /\ token r = tok.
Proof.
  unfold is_valid_token, session_lookup. split.
  - destruct (List.find _ ss) as [r|] eqn:E; [|discriminate]. intros _.
    apply find_some in E as [Hin Heq]. apply String.eqb_eq in Heq. eauto.
  - intros (r & Hin & Heq).
    destruct (List.find _ ss) as [r'|] eqn:E; [reflexivity|].
    apply (find_none _ _ E) in Hin. apply String.eqb_neq in Hin. contradiction.
Qed.

Lemma require_admin_auth_ok req w w1 :
  require_admin_auth req w = (Ok tt, w1) ->
  exists h,
    authorization req = Some h /\
    Py.startswith h "Bearer " = true /\
    is_valid_token (Py.slice_from 7 h) (sessions w) = true /\
    w1 = record (SelectSession (Py.slice_from 7 h)) w.
Proof.
  unfold require_admin_auth, is_valid_token, bind, select_session, ret, raise.
  destruct (authorization req) as [h|]; [|cbn; intros H; discriminate H].
  cbn -[Py.slice_from Py.startswith session_lookup].
  destruct (Py.startswith h "Bearer ") eqn:E;
    cbn -[Py.slice_from Py.startswith session_lookup]; [|intros H; discriminate H].
  destruct (session_lookup _ (sessions w)) eqn:F; [|intros H; discriminate H].
  intros [= <-]. exists h. rewrite F. auto.
Qed.

Lemma require_admin_auth_accepts h w :
  Py.startswith h "Bearer " = true ->
  is_valid_token (Py.slice_from 7 h) (sessions w) = true ->
  require_admin_auth (mk_request (Some h)) w
  = (Ok tt, record (SelectSession (Py.slice_from 7 h)) w).
Proof.
  intros Hp Hv. unfold require_admin_auth, is_valid_token in *.
  cbn -[Py.slice_from Py.startswith session_lookup].
  rewrite Hp. cbn -[Py.slice_from session_lookup]. unfold bind, select_session, ret.
  cbn -[Py.slice_from session_lookup].
  destruct (session_lookup _ (sessions w)); [reflexivity|discriminate].
Qed.

Lemma require_admin_auth_rejects req w :
  authorization req = None \/
  (exists h, authorization req = Some h /\
             Py.startswith h "Bearer " = false) \/
  (exists h, authorization req = Some h /\
             forall r, In r (sessions w) -> token r <> Py.slice_from 7 h) ->
  require_admin_auth req w = (Raise access_denied, w) \/
  exists tok,
    require_admin_auth req w
    = (Raise access_denied, record (SelectSession tok) w).
Proof.
  unfold require_admin_auth.
  intros [Hn | [(h & Hh & Hp) | (h & Hh & Hnone)]].
  - rewrite Hn. left. reflexivity.
  - rewrite Hh. cbn -[Py.startswith]. rewrite Hp. left. reflexivity.
  - rewrite Hh. cbn -[Py.slice_from Py.startswith session_lookup].
    destruct (Py.startswith h "Bearer "); cbn -[Py.slice_from session_lookup].
    + right. exists (Py.slice_from 7 h).
      unfold bind, select_session, raise. cbn -[Py.slice_from session_lookup].
      destruct (session_lookup _ (sessions w)) as [r|] eqn:F; [|reflexivity].
      exfalso. assert (Hv : is_valid_token (Py.slice_from 7 h) (sessions w) = true).
      { unfold is_valid_token. rewrite F. reflexivity. }
      apply is_valid_token_iff in Hv as (r' & Hin & Heq).
      exact (Hnone r' Hin Heq).
    + left. reflexivity.
Qed.

Lemma serve_after_rejection c req w e w' :
  require_admin_auth req w = (Raise e, w') ->
  serve c req w = (Raise e, w').
Proof.
  intros H.
  destruct c; cbn;
    unfold get_daily_reset_settings, set_daily_reset_settings,
      trigger_daily_reset_now, get_user_info, update_user_group_api,
      increment_quota_api, reset_quota_api;
    unfold bind at 1; rewrite H; reflexivity.
Qed.

(** C2.  On every protected route, a request with no Authorization
    header, with one that does not start with "Bearer ", or with a token
    that no session row carries is answered with 403 "Admin access
    required"; sessions, settings, users, the server and the output are
    as before, and the only statement that may have been sent is the
    session lookup. *)
Theorem unauthenticated_rejected c req w :
  authorization req = None \/
  (exists h, authorization req = Some h /\
             Py.startswith h "Bearer " = false) \/
  (exists h, authorization req = Some h /\
             forall r, In r (sessions w) -> token r <> Py.slice_from 7 h) ->
  exists w',
    serve c req w = (Raise (HTTPException 403 "Admin access required"), w') /\
    sessions w' = sessions w /\ settings w' = settings w /\
    users w' = users w /\ pg_faults w' = pg_faults w /\
    stdout w' = stdout w /\
    (journal w' = journal w \/
     exists tok, journal w' = (journal w ++ [SelectSession tok])%list).
Proof.
  intros H. destruct (require_admin_auth_rejects req w H) as [E | [tok E]].
  - exists w. rewrite (serve_after_rejection c req w _ _ E). auto 10.
  - exists (record (SelectSession tok) w).
    rewrite (serve_after_rejection c req w _ _ E). cbn.
    repeat split; auto. right. exists tok. reflexivity.
Qed.

(** ** Settings *)

Lemma set_daily_reset_settings_run payload req w w1 :
  require_admin_auth req w = (Ok tt, w1) ->
  set_daily_reset_settings payload req w
  = if (DailyResetSettingsPayload.vip_quota payload <? 0)%Z
       || (DailyResetSettingsPayload.default_quota payload <? 0)%Z
    then (Raise (HTTPException 400 "Quota cannot be negative"), w1)
    else (Ok (OkMessageBody "Settings saved successfully."),
          snd (set_setting "daily_reset_quota_default"
                 (Py.str (DailyResetSettingsPayload.default_quota payload))
                 (snd (set_setting "daily_reset_quota_vip"
                         (Py.str (DailyResetSettingsPayload.vip_quota payload))
                         w1)))).
Proof.
  intros H. unfold set_daily_reset_settings. unfold bind at 1. rewrite H.
  destruct (_ || _); reflexivity.
Qed.

Lemma saved_quotas_readable (st : gmap string string) V D w :
  0 <= V -> 0 <= D ->
  settings w
  = <["daily_reset_quota_default" := Py.str D]>
      (<["daily_reset_quota_vip" := Py.str V]> st) ->
  Py.int (setting_or "daily_reset_quota_vip" "1000000" w) = Some V /\
  Py.int (setting_or "daily_reset_quota_default" "50000" w) = Some D.
Proof.
  intros HV HD Hs. unfold setting_or. rewrite Hs.
  rewrite lookup_insert_eq.
  rewrite lookup_insert_ne by discriminate. rewrite lookup_insert_eq.
  split; apply int_str.
Qed.

(** C6.  A call of the settings route that passes the admin check: with
    a negative VIP or default quota it raises 400 and the stored settings
    are what they were; with both non-negative it stores both values, as
    decimal text under their two keys, answers ok with a message, and the
    two quotas read back from the settings are the ones sent. *)
Theorem set_daily_reset_settings_checked payload req w w1 :
  require_admin_auth req w = (Ok tt, w1) ->
  ((DailyResetSettingsPayload.vip_quota payload < 0 \/
    DailyResetSettingsPayload.default_quota payload < 0) ->
   exists w',
     set_daily_reset_settings payload req w
     = (Raise (HTTPException 400 "Quota cannot be negative"), w') /\
     settings w' = settings w /\ users w' = users w /\
     sessions w' = sessions w) /\
  (0 <= DailyResetSettingsPayload.vip_quota payload ->
   0 <= DailyResetSettingsPayload.default_quota payload ->
   exists w',
     set_daily_reset_settings payload req w
     = (Ok (OkMessageBody "Settings saved successfully."), w') /\
     settings w'
     = <["daily_reset_quota_default" :=
           Py.str (DailyResetSettingsPayload.default_quota payload)]>
         (<["daily_reset_quota_vip" :=
              Py.str (DailyResetSettingsPayload.vip_quota payload)]>
            (settings w)) /\
     Py.int (setting_or "daily_reset_quota_vip" "1000000" w')
     = Some (DailyResetSettingsPayload.vip_quota payload) /\
     Py.int (setting_or "daily_reset_quota_default" "50000" w')
     = Some (DailyResetSettingsPayload.default_quota payload) /\
     users w' = users w /\ sessions w' = sessions w).
Proof.
  intros Hauth.
  rewrite (set_daily_reset_settings_run payload req w w1 Hauth).
  destruct (require_admin_auth_ok req w w1 Hauth) as (h & _ & _ & _ & ->).
  split.
  - intros Hneg.
    assert (E : (DailyResetSettingsPayload.vip_quota payload <? 0)%Z
                || (DailyResetSettingsPayload.default_quota payload <? 0)%Z
                = true).
    { apply orb_true_iff. rewrite !Z.ltb_lt. exact Hneg. }
    rewrite E. eexists. split; [reflexivity|]. auto.
  - intros Hv Hd.
    assert (E : (DailyResetSettingsPayload.vip_quota payload <? 0)%Z
                || (DailyResetSettingsPayload.default_quota payload <? 0)%Z
                = false).
    { apply orb_false_iff. rewrite !Z.ltb_ge. auto. }
    rewrite E. eexists. split; [reflexivity|].
    split; [reflexivity|].
    destruct (saved_quotas_readable (settings w) _ _
                (snd (set_setting "daily_reset_quota_default"
                        (Py.str (DailyResetSettingsPayload.default_quota payload))
                        (snd (set_setting "daily_reset_quota_vip"
                                (Py.str (DailyResetSettingsPayload.vip_quota payload))
                                (record (SelectSession (Py.slice_from 7 h)) w)))))
                Hv Hd eq_refl) as [E1 E2].
    auto.
Qed.

(** ** Users *)

Lemma find_selected_none user_id t :
  (forall u, In u t -> uid u = user_id -> deleted_at u <> None) ->
  List.find (selected user_id) t = None.
Proof.
  intros H. destruct (List.find (selected user_id) t) as [u|] eqn:E;
    [|reflexivity].
  apply find_some in E as [Hin Hsel]. unfold selected, live in Hsel.
  apply andb_true_iff in Hsel as [Hid Hl]. apply Z.eqb_eq in Hid.
  specialize (H u Hin Hid). destruct (deleted_at u); congruence.
Qed.

Lemma update_where_none user_id f t :
  (forall u, In u t -> uid u = user_id -> deleted_at u <> None) ->
  update_where (selected user_id) f t = t.
Proof.
  intros H. unfold update_where. rewrite <- (map_id t) at 2.
  apply map_ext_in. intros u Hu.
  destruct (selected user_id u) eqn:E; [|reflexivity].
  unfold selected, live in E. apply andb_true_iff in E as [Hid Hl].
  apply Z.eqb_eq in Hid. specialize (H u Hu Hid).
  destruct (deleted_at u); congruence.
Qed.

Lemma find_selected_updated user_id f t :
  (forall u, uid (f u) = uid u /\ deleted_at (f u) = deleted_at u) ->
  List.find (selected user_id) (update_where (selected user_id) f t)
  = f <$> List.find (selected user_id) t.
Proof.
  intros Hf. induction t as [|u t IH]; cbn; [reflexivity|].
  destruct (selected user_id u) eqn:E.
  - assert (E' : selected user_id (f u) = true).
    { unfold selected, live in *. destruct (Hf u) as [-> ->]. exact E. }
    rewrite E'. reflexivity.
  - rewrite E. exact IH.
Qed.

Lemma find_selected_some user_id t :
  (exists u, In u t /\ uid u = user_id /\ deleted_at u = None) ->
  exists u, List.find (selected user_id) t = Some u /\
            uid u = user_id /\ deleted_at u = None.
Proof.
  intros (u & Hin & Hid & Hl).
  destruct (List.find (selected user_id) t) as [u'|] eqn:E.
  - exists u'. apply find_some in E as [_ Hsel]. unfold selected, live in Hsel.
    apply andb_true_iff in Hsel as [Hid' Hl']. apply Z.eqb_eq in Hid'.
    destruct (deleted_at u'); [discriminate|]. auto.
  - apply (find_none _ _ E) in Hin. unfold selected, live in Hin.
    rewrite Hid, Z.eqb_refl, Hl in Hin. discriminate.
Qed.

(** C10.  For an id that no live row carries, on a server that answers
    and with the admin check passed: the three mutation routes answer ok
    and leave the whole users table as it was; only the read route tells,
    with 404.  The one exception is a group text that contains the NUL
    character: the driver refuses it, so that the group route raises
    [ValueError] (an internal error for the caller, not a 404), again
    with the users table as it was. *)
Theorem mutations_on_missing_user req w w1 user_id :
  require_admin_auth req w = (Ok tt, w1) ->
  pg_faults w = [] ->
  (forall u, In u (users w) -> uid u = user_id -> deleted_at u <> None) ->
  (forall g, exists w',
      update_user_group_api (UserGroupUpdatePayload.mk user_id g) req w
      = (if has_nul g then Raise ValueError else Ok OkBody, w') /\
      users w' = users w) /\
  (forall delta, exists w',
      increment_quota_api (UserQuotaUpdatePayload.mk user_id delta) req w
      = (Ok OkBody, w') /\ users w' = users w) /\
  (forall q, exists w',
      reset_quota_api (UserQuotaResetPayload.mk user_id q) req w
      = (Ok OkBody, w') /\ users w' = users w) /\
  (exists w',
      get_user_info user_id req w
      = (Raise (HTTPException 404 "User not found or has been deleted"), w')
      /\ users w' = users w).
Proof.
  intros Hauth Hq Hmiss.
  destruct (require_admin_auth_ok req w w1 Hauth) as (h & _ & _ & _ & ->).
  set (w1 := record (SelectSession (Py.slice_from 7 h)) w) in *.
  assert (Hq1 : pg_faults w1 = []) by exact Hq.
  split; [|split; [|split]].
  - intros g. unfold update_user_group_api. unfold bind at 1. rewrite Hauth.
    unfold bind at 1. cbn [UserGroupUpdatePayload.user_id UserGroupUpdatePayload.group].
    destruct (has_nul g) eqn:Hg.
    + rewrite (update_user_group_refused w1 user_id g Hq1 Hg).
      eexists. split; reflexivity.
    + rewrite (update_user_group_quiet w1 user_id g Hq1 Hg).
      eexists. split; [reflexivity|]. cbn. apply update_where_none, Hmiss.
  - intros d. unfold increment_quota_api. unfold bind at 1. rewrite Hauth.
    unfold bind at 1. cbn [UserQuotaUpdatePayload.user_id UserQuotaUpdatePayload.delta].
    rewrite (increment_user_quota_quiet w1 user_id d Hq1).
    eexists. split; [reflexivity|]. cbn. apply update_where_none, Hmiss.
  - intros q. unfold reset_quota_api. unfold bind at 1. rewrite Hauth.
    unfold bind at 1. cbn [UserQuotaResetPayload.user_id UserQuotaResetPayload.quota].
    rewrite (reset_user_quota_quiet w1 user_id q Hq1).
    eexists. split; [reflexivity|]. cbn. apply update_where_none, Hmiss.
  - unfold get_user_info. unfold bind at 1. rewrite Hauth.
    unfold bind at 1. rewrite (get_user_by_id_quiet w1 user_id Hq1).
    change (users w1) with (users w).
    rewrite (find_selected_none user_id (users w) Hmiss).
    eexists. split; [reflexivity|]. reflexivity.
Qed.

(** C4.  On a server that answers, for an id carried by a live row and
    any Q (so any non-negative Q): after [reset_user_quota id Q],
    [get_user_by_id id] reports quota Q and used_quota 0.  The reset
    sends one UPDATE, and whatever the server does the table is afterwards
    either untouched or has both columns set in every selected row. *)
Theorem reset_then_get user_id Q w :
  pg_faults w = [] ->
  (exists u, In u (users w) /\ uid u = user_id /\ deleted_at u = None) ->
  (exists w1 info w2,
      reset_user_quota user_id Q w = (Ok tt, w1) /\
      get_user_by_id user_id w1 = (Ok info, w2) /\
      info_id info = user_id /\ info_quota info = Q /\
      info_used_quota info = 0 /\
      journal w1
      = (journal w ++
         [PgConnect; PgExecute (UpdateResetQuota Q user_id); PgCommit])%list) /\
  (forall w0,
      users (snd (reset_user_quota user_id Q w0)) = users w0 \/
      users (snd (reset_user_quota user_id Q w0))
      = map (fun u => if selected user_id u
                      then mk_user (uid u) (username u) (display_name u)
                                   (group u) Q 0 (deleted_at u)
                      else u) (users w0)).
Proof.
  intros Hq Hex. split.
  - destruct (find_selected_some user_id (users w) Hex) as (u & Hf & Hid & Hl).
    exists (committed (UpdateResetQuota Q user_id) w).
    rewrite (reset_user_quota_quiet w user_id Q Hq).
    rewrite (get_user_by_id_quiet (committed (UpdateResetQuota Q user_id) w)
               user_id Hq).
    rewrite committed_users. cbn [pg_run fst].
    rewrite find_selected_updated by (intros; split; reflexivity).
    rewrite Hf. cbn [fmap option_fmap option_map].
    eexists. eexists. split; [reflexivity|]. split; [reflexivity|].
    cbn. repeat split; auto. rewrite <- !app_assoc. reflexivity.
  - intros w0. apply reset_user_quota_any.
Qed.

Lemma with_quota_added_twice d1 d2 u :
  with_quota_added d2 (with_quota_added d1 u) = with_quota_added (d1 + d2) u.
Proof. unfold with_quota_added. cbn. f_equal. lia. Qed.

Lemma increment_rows_twice user_id d1 d2 t :
  update_where (selected user_id) (with_quota_added d2)
    (update_where (selected user_id) (with_quota_added d1) t)
  = update_where (selected user_id) (with_quota_added (d1 + d2)) t.
Proof.
  unfold update_where. rewrite map_map. apply map_ext. intros u.
  destruct (selected user_id u) eqn:E.
  - change (selected user_id (with_quota_added d1 u)) with (selected user_id u).
    rewrite E. apply with_quota_added_twice.
  - rewrite E. reflexivity.
Qed.

(** C5.  On a server that answers, two increments by d1 and then d2
    leave the users table exactly as one increment by d1 + d2 does, for
    all integers d1 and d2; a live row with that id ends with its quota
    plus d1 + d2, with no bound applied (so possibly below zero). *)
Theorem increment_twice user_id d1 d2 w :
  pg_faults w = [] ->
  users (snd (increment_user_quota user_id d2
                (snd (increment_user_quota user_id d1 w))))
  = users (snd (increment_user_quota user_id (d1 + d2) w)) /\
  (forall i u,
      users w !! i = Some u -> uid u = user_id -> deleted_at u = None ->
      exists u',
        users (snd (increment_user_quota user_id (d1 + d2) w)) !! i = Some u' /\
        quota u' = quota u + (d1 + d2)).
Proof.
  intros Hq.
  rewrite (increment_user_quota_quiet w user_id d1 Hq).
  rewrite (increment_user_quota_quiet w user_id (d1 + d2) Hq).
  cbn [snd].
  rewrite (increment_user_quota_quiet
             (committed (UpdateIncrement d1 user_id) w) user_id d2 Hq).
  cbn [snd]. rewrite !committed_users. cbn [pg_run fst]. split.
  - apply increment_rows_twice.
  - intros i u Hi Hid Hl. exists (with_quota_added (d1 + d2) u). split.
    + unfold update_where. change map with (@fmap list _).
      rewrite list_lookup_fmap, Hi. cbn. unfold selected, live.
      rewrite Hid, Z.eqb_refl, Hl. reflexivity.
    + reflexivity.
Qed.

Lemma fetchone_first p (t : list user_row) :
  fetchone (List.firstn 1 (List.filter p t)) = List.find p t.
Proof.
  induction t as [|u t IH]; cbn; [reflexivity|].
  destruct (p u); cbn; [reflexivity|exact IH].
Qed.

Lemma get_user_by_id_missing user_id w :
  List.find (selected user_id) (users w) = None ->
  fst (get_user_by_id user_id w)
  = Raise (HTTPException 404 "User not found or has been deleted") \/
  fst (get_user_by_id user_id w) = Raise OperationalError.
Proof.
  intros Hn. destruct w as [ss st us fs j out]. cbn in Hn.
  unfold get_user_by_id, postgres_conn, execute, close, try_finally, bind,
    ret, raise, pg_interact.
  cbn -[fetchone List.firstn List.filter].
  destruct fs as [|[|[|?]] ?]; cbn -[fetchone List.firstn List.filter];
    rewrite ?fetchone_first, ?Hn; auto.
Qed.

Lemma deleted_row_stays (t t' : list user_row) i u :
  deleted_rows_kept t t' -> t !! i = Some u -> deleted_at u <> None ->
  t' !! i = Some u.
Proof.
  intros H Hi Hd. destruct (Forall2_lookup_l _ _ _ _ _ H Hi) as (u' & Hi' & E).
  rewrite Hi'. f_equal. apply E. unfold live. destruct (deleted_at u); congruence.
Qed.


(** ** Sessions *)

Lemma is_valid_token_app tok ss r :
  is_valid_token tok (ss ++ [r])
  = is_valid_token tok ss || String.eqb (token r) tok.
Proof.
  unfold is_valid_token, session_lookup.
  induction ss as [|s ss IH]; cbn.
  - destruct (String.eqb (token r) tok); reflexivity.
  - destruct (String.eqb (token s) tok); [reflexivity|exact IH].
Qed.

Lemma startswith_bearer tok : Py.startswith ("Bearer " ++ tok) "Bearer " = true.
Proof. destruct tok; reflexivity. Qed.

Lemma admin_login_ok pw payload rnd now w :
  AdminLoginPayload.password payload = pw ->
  admin_login pw payload rnd now w
  = (Ok (TokenBody (Py.hex (Py.urandom rnd 16))),
     set_sessions
       (sessions w ++
        [mk_session (next_sid (sessions w)) (Py.hex (Py.urandom rnd 16)) now])
       (record (InsertSession (Py.hex (Py.urandom rnd 16)) now) w)).
Proof.
  intros <-. unfold admin_login. rewrite String.eqb_refl. reflexivity.
Qed.

Lemma slice_bearer tok : Py.slice_from 7 ("Bearer " ++ tok) = tok.
Proof. reflexivity. Qed.

Lemma require_admin_auth_bearer tok w :
  require_admin_auth (bearer tok) w
  = (if is_valid_token tok (sessions w) then Ok tt else Raise access_denied,
     record (SelectSession tok) w).
Proof.
  unfold require_admin_auth, is_valid_token.
  change (default "" (authorization (bearer tok))) with ("Bearer " ++ tok).
  rewrite startswith_bearer, slice_bearer.
  cbn [negb]. unfold bind, select_session, ret, raise.
  cbn [sessions record].
  destruct (session_lookup tok (sessions w)); reflexivity.
Qed.

Lemma admin_login_wrong pw payload rnd now w :
  AdminLoginPayload.password payload <> pw ->
  admin_login pw payload rnd now w
  = (Raise (HTTPException 401 "Invalid admin password"), w).
Proof.
  intros H. unfold admin_login. apply String.eqb_neq in H. rewrite H.
  reflexivity.
Qed.

Lemma step_valid pw e w tok :
  is_valid_token tok (sessions (fst (step pw e w))) = true <->
  is_valid_token tok (sessions w) = true \/ snd (step pw e w) = Some tok.
Proof.
  destruct e as [payload rnd now | c req | ]; cbn [step].
  - destruct (string_dec (AdminLoginPayload.password payload) pw) as [E|E].
    + rewrite (admin_login_ok pw payload rnd now w E). cbn [fst snd].
      cbn [sessions set_sessions record]. rewrite is_valid_token_app.
      cbn [token]. rewrite orb_true_iff, String.eqb_eq.
      split; (intros [H|H]; [left; exact H|right; congruence]).
    + rewrite (admin_login_wrong pw payload rnd now w E). cbn.
      split; [auto|]. intros [H|H]; [exact H|discriminate H].
  - cbn [fst snd]. rewrite (serve_sessions c req w).
    split; [auto|]. intros [H|H]; [exact H|discriminate H].
  - cbn [fst snd]. rewrite (daily_reset_sessions "scheduled" w).
    split; [auto|]. intros [H|H]; [exact H|discriminate H].
Qed.

Lemma run_valid pw es : forall w tok,
  is_valid_token tok (sessions (fst (run pw es w))) = true <->
  is_valid_token tok (sessions w) = true \/ In tok (snd (run pw es w)).
Proof.
  induction es as [|e r IH]; intros w tok; cbn [run].
  - cbn. tauto.
  - pose proof (step_valid pw e w tok) as Hs.
    destruct (step pw e w) as [w1 issued]. cbn [fst snd] in Hs.
    specialize (IH w1 tok).
    destruct (run pw r w1) as [w2 later]. cbn [fst snd] in IH |- *.
    rewrite IH, Hs.
    destruct issued as [t|]; cbn [In]; split.
    + intros [[H|H]|H]; auto. right. left. congruence.
    + intros [H|[H|H]]; auto. left. right. congruence.
    + intros [[H|H]|H]; auto. discriminate H.
    + intros [H|H]; auto.
Qed.

(** C7.  A login with the right password returns as token the
    hexadecimal text of sixteen random bytes and stores a session row
    with it; a request carrying "Bearer " and that token then passes the
    admin check, and the login changes the answer of the check for no
    other string.  The check passes for a string exactly when some
    session row carries that string, and raises 403 for every other; so
    after any history of logins, calls and scheduled runs that starts
    with no session, the check passes for the tokens the logins issued
    and raises 403 for every string that was never issued. *)
Theorem issued_tokens_are_the_valid_ones pw payload rnd now w :
  AdminLoginPayload.password payload = pw ->
  (exists tok w',
      admin_login pw payload rnd now w = (Ok (TokenBody tok), w') /\
      tok = Py.hex (Py.urandom rnd 16) /\
      (exists r, In r (sessions w') /\ token r = tok) /\
      require_admin_auth (bearer tok) w'
      = (Ok tt, record (SelectSession tok) w') /\
      (forall s, s <> tok ->
         fst (require_admin_auth (bearer s) w')
         = fst (require_admin_auth (bearer s) w))) /\
  (forall s w0,
      (fst (require_admin_auth (bearer s) w0) = Ok tt <->
       exists r, In r (sessions w0) /\ token r = s) /\
      ((forall r, In r (sessions w0) -> token r <> s) ->
       fst (require_admin_auth (bearer s) w0)
       = Raise (HTTPException 403 "Admin access required"))) /\
  (forall es w0 s,
      sessions w0 = [] ->
      (In s (snd (run pw es w0)) ->
       fst (require_admin_auth (bearer s) (fst (run pw es w0))) = Ok tt) /\
      (~ In s (snd (run pw es w0)) ->
       fst (require_admin_auth (bearer s) (fst (run pw es w0)))
       = Raise (HTTPException 403 "Admin access required"))).
Proof.
  intros Hpw. split; [|split].
  - eexists _, _. split; [apply (admin_login_ok pw payload rnd now w Hpw)|].
    set (tok := Py.hex (Py.urandom rnd 16)).
    cbn [sessions set_sessions record].
    assert (Hv : is_valid_token tok
                   (sessions w ++ [mk_session (next_sid (sessions w)) tok now])
                 = true).
    { rewrite is_valid_token_app. cbn [token]. rewrite String.eqb_refl.
      apply orb_true_r. }
    split; [reflexivity|]. split; [|split].
    + apply is_valid_token_iff, Hv.
    + rewrite require_admin_auth_bearer. cbn [sessions set_sessions record].
      rewrite Hv. reflexivity.
    + intros s Hne. rewrite !require_admin_auth_bearer. cbn [fst].
      cbn [sessions set_sessions record]. rewrite is_valid_token_app.
      cbn [token].
      assert (E : String.eqb tok s = false).
      { apply String.eqb_neq. congruence. }
      rewrite E, orb_false_r. reflexivity.
  - intros s w0. rewrite require_admin_auth_bearer. cbn [fst]. split.
    + rewrite <- is_valid_token_iff.
      destruct (is_valid_token s (sessions w0)); split; intros H;
        try reflexivity; discriminate H.
    + intros Hnone.
      destruct (is_valid_token s (sessions w0)) eqn:Hv; [|reflexivity].
      apply is_valid_token_iff in Hv as (r & Hin & Heq).
      destruct (Hnone r Hin Heq).
  - intros es w0 s Hempty. rewrite require_admin_auth_bearer. cbn [fst].
    pose proof (run_valid pw es w0 s) as Hrun. rewrite Hempty in Hrun.
    cbn in Hrun. split; intros Hin.
    + rewrite (proj2 Hrun (or_intror Hin)). reflexivity.
    + destruct (is_valid_token s (sessions (fst (run pw es w0)))) eqn:Hv;
        [|reflexivity].
      destruct (proj1 Hrun eq_refl) as [H|H]; [discriminate H|].
      destruct (Hin H).
Qed.

(** ** The settings stay readable *)

Lemma quotas_readable_same w w' :
  settings w' = settings w -> quotas_readable w -> quotas_readable w'.
Proof.
  intros Hs (V & D & HV & HD & Hpos). exists V, D.
  rewrite !(setting_or_same _ _ _ _ Hs). auto.
Qed.

Lemma quotas_readable_unset w : settings w = ∅ -> quotas_readable w.
Proof.
  intros Hs. exists 1000000, 50000. unfold setting_or. rewrite Hs.
  rewrite !lookup_empty. repeat split; try reflexivity; lia.
Qed.

Lemma set_daily_reset_settings_settings payload req w :
  settings (snd (set_daily_reset_settings payload req w)) = settings w \/
  (0 <= DailyResetSettingsPayload.vip_quota payload /\
   0 <= DailyResetSettingsPayload.default_quota payload /\
   settings (snd (set_daily_reset_settings payload req w))
   = <["daily_reset_quota_default" :=
         Py.str (DailyResetSettingsPayload.default_quota payload)]>
       (<["daily_reset_quota_vip" :=
            Py.str (DailyResetSettingsPayload.vip_quota payload)]>
          (settings w))).
Proof.
  pose proof (require_admin_auth_settings req w) as Hs.
  unfold same_settings in Hs.
  destruct (require_admin_auth req w) as [[[]|e] w1] eqn:Hauth;
    cbn [snd] in Hs.
  - rewrite (set_daily_reset_settings_run payload req w w1 Hauth).
    destruct ((DailyResetSettingsPayload.vip_quota payload <? 0)%Z
              || (DailyResetSettingsPayload.default_quota payload <? 0)%Z)
      eqn:E.
    + left. exact Hs.
    + right. apply orb_false_iff in E as [E1 E2].
      apply Z.ltb_ge in E1, E2. repeat split; auto.
      cbn. rewrite Hs. reflexivity.
  - left.
    change (set_daily_reset_settings payload req w)
      with (serve (SetDailyResetSettings payload) req w).
    rewrite (serve_after_rejection _ req w e w1 Hauth). exact Hs.
Qed.

Lemma serve_quotas_readable c req w :
  quotas_readable w -> quotas_readable (snd (serve c req w)).
Proof.
  intros Hr.
  assert (Hkeep : forall m : M body, keeps same_settings m ->
                    quotas_readable (snd (m w))).
  { intros m Hm. apply (quotas_readable_same w); [apply Hm|exact Hr]. }
  destruct c; cbn [serve];
    try solve [apply Hkeep;
               unfold get_daily_reset_settings, trigger_daily_reset_now,
                 get_user_info, update_user_group_api, increment_quota_api,
                 reset_quota_api; frame].
  destruct (set_daily_reset_settings_settings payload req w)
    as [Hs | (HV & HD & Hs)].
  - apply (quotas_readable_same w); [exact Hs|exact Hr].
  - destruct (saved_quotas_readable _ _ _ _ HV HD Hs) as [E1 E2].
    eexists _, _. eauto.
Qed.

Lemma admin_login_settings pw payload rnd now :
  keeps same_settings (admin_login pw payload rnd now).
Proof. unfold admin_login. frame. Qed.

Lemma step_quotas_readable pw e w :
  quotas_readable w -> quotas_readable (fst (step pw e w)).
Proof.
  intros Hr. destruct e as [payload rnd now | c req | ]; cbn [step].
  - pose proof (admin_login_settings pw payload rnd now w) as Hs.
    unfold same_settings in Hs.
    destruct (admin_login pw payload rnd now w) as [[[]|?] w1];
      cbn [fst snd] in *; apply (quotas_readable_same w); auto.
  - cbn [fst]. apply serve_quotas_readable, Hr.
  - cbn [fst]. apply (quotas_readable_same w); [|exact Hr].
    apply daily_reset_settings.
Qed.

Lemma run_quotas_readable pw es : forall w,
  quotas_readable w -> quotas_readable (fst (run pw es w)).
Proof.
  induction es as [|e r IH]; intros w Hr; cbn [run]; [exact Hr|].
  pose proof (step_quotas_readable pw e w Hr) as H1.
  destruct (step pw e w) as [w1 issued]. cbn [fst] in H1.
  specialize (IH w1 H1). destruct (run pw r w1) as [w2 later]. exact IH.
Qed.

(** X27.  In a world reached by any history from unset settings, a run
    of the job on a server that answers goes through and resets the
    table by group, with two non-negative quotas. *)
Lemma daily_reset_after_history pw es w0 trig :
  settings w0 = ∅ ->
  pg_faults (fst (run pw es w0)) = [] ->
  NoDup (map uid (users (fst (run pw es w0)))) ->
  exists V D w',
    0 <= V /\ 0 <= D /\
    daily_reset trig (fst (run pw es w0)) = (Ok tt, w') /\
    users w' = map (reset_row V D) (users (fst (run pw es w0))).
Proof.
  intros Hs Hq Hnd.
  destruct (run_quotas_readable pw es w0 (quotas_readable_unset w0 Hs))
    as (V & D & HV & HD & HV0 & HD0).
  destruct (daily_reset_quiet trig _ V D Hq HV HD) as (w' & Hrun & _ & Hu & _).
  exists V, D, w'. rewrite Hu, (job_table V D _ Hnd). auto.
Qed.

(** A run that the server interrupts, with the rows returned in table
    order: the first candidate is reset and stays reset, the second is
    not, and the failure is printed. *)
Example daily_reset_interrupted :
  let w := snd (daily_reset "scheduled"
                  (set_pg_faults [5%nat]
                     demo_world)) in
  fst (daily_reset "scheduled"
         (set_pg_faults [5%nat] demo_world))
  = Ok tt /\
  users w = [with_quota_reset 100000 alice; bob; carol; dave] /\
  stdout w = [LogStart "scheduled"; LogFound 2; LogReset "VIP" 1 100000;
              LogFailed OperationalError].
Proof. vm_compute. repeat split. Qed.

(** The scenario of the specification: VIP quota 100000, default quota
    20000, a "vip", a "default" and an "enterprise" user (and here a
    soft-deleted "vip" one). *)
Example daily_reset_scenario :
  users (snd (daily_reset "manual" demo_world))
  = [mk_user 1 "alice" "Alice" "vip" 100000 0 None;
     mk_user 2 "bob" "Bob" "default" 20000 0 None;
     carol; dave].
Proof. vm_compute. reflexivity. Qed.

(** Unique ids are needed for the assignment by group: were a "vip" and a
    "default" row to share an id, both would end with the quota of the
    one the server returns last, here the later one in the table. *)
Example shared_id_takes_last_quota :
  users (snd (daily_reset "manual"
                (set_users [alice; mk_user 1 "al" "Al" "default" 0 0 None]
                   demo_world)))
  = [mk_user 1 "alice" "Alice" "vip" 20000 0 None;
     mk_user 1 "al" "Al" "default" 20000 0 None].
Proof. vm_compute. reflexivity. Qed.

(** ** The statements on the small instance *)

Lemma demo_ids_unique : NoDup (map uid (users demo_world)).
Proof. apply (bool_decide_unpack _). vm_compute. exact I. Qed.

Lemma demo_request_passes :
  require_admin_auth demo_request demo_world
  = (Ok tt, record (SelectSession "00ff") demo_world).
Proof. reflexivity. Qed.

Lemma daily_reset_assigns_by_group_witness :
  exists w',
    daily_reset "scheduled" demo_world = (Ok tt, w') /\
    (exists a, users w' !! 0%nat = Some a /\
               quota a = 100000 /\ used_quota a = 0) /\
    (exists b, users w' !! 1%nat = Some b /\
               quota b = 20000 /\ used_quota b = 0) /\
    users w' !! 2%nat = Some carol.
Proof.
  destruct (daily_reset_assigns_by_group "scheduled" demo_world 100000 20000)
    as (_ & _ & w' & Hrun & _ & Hrows).
  - reflexivity.
  - exact demo_ids_unique.
  - vm_compute. reflexivity.
  - vm_compute. reflexivity.
  - exists w'. split; [exact Hrun|]. split; [|split].
    + destruct (Hrows 0%nat alice eq_refl) as (a & Ha & _ & _ & _ & Hv & _).
      exists a. split; [exact Ha|]. apply Hv; reflexivity.
    + destruct (Hrows 1%nat bob eq_refl) as (b & Hb & _ & _ & _ & _ & Hd & _).
      exists b. split; [exact Hb|]. apply Hd; reflexivity.
    + destruct (Hrows 2%nat carol eq_refl)
        as (c & Hc & _ & _ & _ & _ & _ & Ho).
      rewrite Hc. f_equal. apply Ho; discriminate.
Defined.

Lemma daily_reset_idempotent_witness :
  users (snd (daily_reset "manual" (snd (daily_reset "manual" demo_world))))
  = users (snd (daily_reset "manual" demo_world)).
Proof.
  apply (daily_reset_idempotent "manual" "manual" demo_world).
  reflexivity.
Defined.

Lemma trigger_daily_reset_now_always_ok_witness :
  fst (trigger_daily_reset_now demo_request
         (set_pg_faults [5%nat] demo_world))
  = Ok (OkMessageBody "Immediate reset task has been triggered successfully.").
Proof.
  rewrite (proj1 (trigger_daily_reset_now_always_ok demo_request
                    (set_pg_faults [5%nat]
                       demo_world)
                    (record (SelectSession "00ff")
                       (set_pg_faults [5%nat]
                          demo_world))
                    eq_refl)).
  reflexivity.
Defined.

Lemma unauthenticated_rejected_witness :
  exists w',
    serve (ResetQuotaApi (UserQuotaResetPayload.mk 1 500))
          (mk_request None) demo_world
    = (Raise (HTTPException 403 "Admin access required"), w') /\
    users w' = users demo_world /\ settings w' = settings demo_world.
Proof.
  destruct (unauthenticated_rejected
              (ResetQuotaApi (UserQuotaResetPayload.mk 1 500))
              (mk_request None) demo_world)
    as (w' & Hrun & _ & Hs & Hu & _).
  - left. reflexivity.
  - exists w'. auto.
Defined.

Lemma set_daily_reset_settings_checked_witness :
  exists w',
    set_daily_reset_settings (DailyResetSettingsPayload.mk (-1) 5)
                             demo_request demo_world
    = (Raise (HTTPException 400 "Quota cannot be negative"), w') /\
    settings w' = settings demo_world.
Proof.
  destruct (proj1 (set_daily_reset_settings_checked
                     (DailyResetSettingsPayload.mk (-1) 5)
                     demo_request demo_world _ demo_request_passes))
    as (w' & Hrun & Hs & _).
  - left. cbn. lia.
  - exists w'. auto.
Defined.

Lemma demo_no_live_4 :
  forall u, In u (users demo_world) -> uid u = 4 -> deleted_at u <> None.
Proof.
  intros u [<-|[<-|[<-|[<-|[]]]]] E; cbn in *; congruence.
Qed.

Lemma mutations_on_missing_user_witness :
  (exists w',
      update_user_group_api (UserGroupUpdatePayload.mk 4 "vip")
                            demo_request demo_world
      = (Ok OkBody, w') /\ users w' = users demo_world) /\
  (exists w',
      reset_quota_api (UserQuotaResetPayload.mk 4 500) demo_request demo_world
      = (Ok OkBody, w') /\ users w' = users demo_world) /\
  (exists w',
      get_user_info 4 demo_request demo_world
      = (Raise (HTTPException 404 "User not found or has been deleted"), w')).
Proof.
  destruct (mutations_on_missing_user demo_request demo_world _ 4
              demo_request_passes eq_refl demo_no_live_4)
    as (Hgroup & _ & Hreset & (w' & Hget & _)).
  split; [exact (Hgroup "vip")|]. split; [exact (Hreset 500)|].
  exists w'. exact Hget.
Defined.

(** The claim as first put, that the group route answers ok for every
    group text, fails for a text with the NUL character: the user 4 has
    no live row, the server answers, the caller is admitted, and the
    route raises [ValueError]. *)
Lemma mutations_on_missing_user_counterexample :
  (forall u, In u (users demo_world) -> uid u = 4 -> deleted_at u <> None) /\
  pg_faults demo_world = [] /\
  fst (require_admin_auth demo_request demo_world) = Ok tt /\
  fst (update_user_group_api (UserGroupUpdatePayload.mk 4 nul_group)
         demo_request demo_world)
  = Raise ValueError /\
  fst (update_user_group_api (UserGroupUpdatePayload.mk 4 nul_group)
         demo_request demo_world)
  <> Ok OkBody.
Proof.
  split; [exact demo_no_live_4|]. repeat split. intros H. discriminate H.
Qed.

Lemma reset_then_get_witness :
  exists w1 info w2,
    reset_user_quota 1 500 demo_world = (Ok tt, w1) /\
    get_user_by_id 1 w1 = (Ok info, w2) /\
    info_quota info = 500 /\ info_used_quota info = 0.
Proof.
  destruct (proj1 (reset_then_get 1 500 demo_world eq_refl
                     (ex_intro _ alice
                        (conj (or_introl eq_refl) (conj eq_refl eq_refl)))))
    as (w1 & info & w2 & H1 & H2 & _ & Hq & Hu & _).
  exists w1, info, w2. auto.
Defined.

Lemma increment_twice_witness :
  exists u',
    users (snd (increment_user_quota 1 (5 + -10) demo_world)) !! 0%nat
    = Some u' /\
    quota u' = -5.
Proof.
  destruct (proj2 (increment_twice 1 5 (-10) demo_world eq_refl)
              0%nat alice eq_refl eq_refl eq_refl) as (u' & Hu & Hq).
  exists u'. split; [exact Hu|exact Hq].
Defined.


Lemma issued_tokens_are_the_valid_ones_witness :
  exists w',
    admin_login "admin123" (AdminLoginPayload.mk "admin123") demo_rnd
                "2024-05-01T11:00:00" demo_world
    = (Ok (TokenBody "deadbeef000000000000000000000000"), w') /\
    fst (require_admin_auth (bearer "deadbeef000000000000000000000000") w')
    = Ok tt /\
    fst (require_admin_auth (bearer "deadbeef") w')
    = Raise (HTTPException 403 "Admin access required").
Proof.
  destruct (proj1 (issued_tokens_are_the_valid_ones "admin123"
                     (AdminLoginPayload.mk "admin123") demo_rnd
                     "2024-05-01T11:00:00" demo_world eq_refl))
    as (tok & w' & Hrun & -> & _ & Hacc & Hother).
  exists w'. split; [exact Hrun|]. split.
  - change (Py.hex (Py.urandom demo_rnd 16))
      with "deadbeef000000000000000000000000" in Hacc.
    rewrite Hacc. reflexivity.
  - rewrite (Hother "deadbeef"); [reflexivity|].
    intros H. discriminate H.
Defined.

(** * Further properties of the code *)

(** ** Settings: what is written is what is read *)

(** X1.  [get_setting] after [set_setting]: the key just written reads as
    the value written, whatever the default; any other key reads as it
    did before; and the write touches neither users nor sessions. *)
Theorem setting_round_trip key value key' default w :
  fst (get_setting key' default (snd (set_setting key value w)))
  = (if String.eqb key' key then Ok value
     else fst (get_setting key' default w)) /\
  users (snd (set_setting key value w)) = users w /\
  sessions (snd (set_setting key value w)) = sessions w.
Proof.
  split; [|split; reflexivity].
  unfold get_setting, set_setting. cbn.
  destruct (String.eqb_spec key' key) as [->|Hne].
  - rewrite lookup_insert_eq. reflexivity.
  - rewrite lookup_insert_ne by congruence. reflexivity.
Qed.

Lemma get_daily_reset_settings_run req w w1 :
  require_admin_auth req w = (Ok tt, w1) ->
  fst (get_daily_reset_settings req w)
  = match Py.int (setting_or "daily_reset_quota_vip" "1000000" w),
          Py.int (setting_or "daily_reset_quota_default" "50000" w) with
    | Some V, Some D => Ok (SettingsBody V D)
    | _, _ => Raise ValueError
    end.
Proof.
  intros Hauth.
  destruct (require_admin_auth_ok req w w1 Hauth) as (h & _ & _ & _ & ->).
  unfold get_daily_reset_settings. unfold bind at 1. rewrite Hauth.
  unfold setting_or, bind, get_setting, py_int, ret, raise. cbn.
  destruct (Py.int _) as [V|]; cbn; [|reflexivity].
  destruct (Py.int _) as [D|]; reflexivity.
Qed.

Lemma get_daily_reset_settings_settings req :
  keeps same_settings (get_daily_reset_settings req).
Proof. unfold get_daily_reset_settings. frame. Qed.

Lemma get_daily_reset_settings_users req :
  keeps same_users (get_daily_reset_settings req).
Proof. unfold get_daily_reset_settings. frame. Qed.

Lemma require_admin_auth_same_sessions req w w' :
  sessions w' = sessions w ->
  fst (require_admin_auth req w') = fst (require_admin_auth req w).
Proof.
  intros Hs. unfold require_admin_auth.
  destruct (negb _); [reflexivity|].
  unfold bind, select_session. cbn -[Py.slice_from session_lookup].
  rewrite Hs. destruct (session_lookup _ _); reflexivity.
Qed.

(** X2.  The settings routes round-trip: after a POST of two non-negative
    quotas that passed the admin check, a GET by the same caller answers
    with exactly those two quotas. *)
Theorem saved_settings_are_served payload req w w1 :
  require_admin_auth req w = (Ok tt, w1) ->
  0 <= DailyResetSettingsPayload.vip_quota payload ->
  0 <= DailyResetSettingsPayload.default_quota payload ->
  fst (get_daily_reset_settings req
         (snd (set_daily_reset_settings payload req w)))
  = Ok (SettingsBody (DailyResetSettingsPayload.vip_quota payload)
                     (DailyResetSettingsPayload.default_quota payload)).
Proof.
  intros Hauth HV HD.
  rewrite (set_daily_reset_settings_run payload req w w1 Hauth).
  assert (E : (DailyResetSettingsPayload.vip_quota payload <? 0)%Z
              || (DailyResetSettingsPayload.default_quota payload <? 0)%Z
              = false).
  { apply orb_false_iff. rewrite !Z.ltb_ge. auto. }
  rewrite E. cbn [snd].
  set (w' := snd (set_setting "daily_reset_quota_default" _
                    (snd (set_setting "daily_reset_quota_vip" _ w1)))).
  assert (Hsess : sessions w' = sessions w).
  { destruct (require_admin_auth_ok req w w1 Hauth) as (h & _ & _ & _ & ->).
    reflexivity. }
  pose proof (require_admin_auth_same_sessions req w w' Hsess) as Ha.
  rewrite Hauth in Ha. cbn [fst] in Ha.
  destruct (require_admin_auth req w') as [r w2] eqn:Hauth'.
  cbn [fst] in Ha. subst r.
  rewrite (get_daily_reset_settings_run req w' w2 Hauth').
  destruct (saved_quotas_readable (settings w1) _ _ w' HV HD eq_refl)
    as [-> ->].
  reflexivity.
Qed.

(** X3.  Whatever history of logins, calls and scheduled runs follows
    unset settings, a GET of the settings that passes the admin check
    answers, and with two quotas that are not negative: no negative or
    unreadable value is ever stored. *)
Theorem settings_route_always_answers pw es w0 req :
  settings w0 = ∅ ->
  fst (require_admin_auth req (fst (run pw es w0))) = Ok tt ->
  exists V D,
    fst (get_daily_reset_settings req (fst (run pw es w0)))
    = Ok (SettingsBody V D) /\ 0 <= V /\ 0 <= D.
Proof.
  intros Hs Hauth.
  destruct (run_quotas_readable pw es w0 (quotas_readable_unset w0 Hs))
    as (V & D & HV & HD & HV0 & HD0).
  destruct (require_admin_auth req (fst (run pw es w0))) as [r w1] eqn:E.
  cbn [fst] in Hauth. subst r.
  exists V, D. rewrite (get_daily_reset_settings_run req _ w1 E), HV, HD.
  auto.
Qed.

(** X4.  A GET of the settings that passes the admin check: with both
    keys unset it answers 1000000 and 50000; when both stored texts are
    numerals for [int] it answers with the two numbers; when one of them
    is no numeral it raises [ValueError] (an internal error for the
    caller); and in every case it leaves settings, users and sessions as
    they were. *)
Theorem get_daily_reset_settings_reads req w :
  fst (require_admin_auth req w) = Ok tt ->
  (settings w !! "daily_reset_quota_vip" = None ->
   settings w !! "daily_reset_quota_default" = None ->
   fst (get_daily_reset_settings req w) = Ok (SettingsBody 1000000 50000)) /\
  (forall V D,
      Py.int (setting_or "daily_reset_quota_vip" "1000000" w) = Some V ->
      Py.int (setting_or "daily_reset_quota_default" "50000" w) = Some D ->
      fst (get_daily_reset_settings req w) = Ok (SettingsBody V D)) /\
  (Py.int (setting_or "daily_reset_quota_vip" "1000000" w) = None \/
   Py.int (setting_or "daily_reset_quota_default" "50000" w) = None ->
   fst (get_daily_reset_settings req w) = Raise ValueError) /\
  settings (snd (get_daily_reset_settings req w)) = settings w /\
  users (snd (get_daily_reset_settings req w)) = users w /\
  sessions (snd (get_daily_reset_settings req w)) = sessions w.
Proof.
  intros Hauth.
  destruct (require_admin_auth req w) as [r w1] eqn:E.
  cbn [fst] in Hauth. subst r.
  rewrite (get_daily_reset_settings_run req w w1 E).
  split; [|split; [|split; [|split; [|split]]]].
  - intros H1 H2. unfold setting_or. rewrite H1, H2. reflexivity.
  - intros V D -> ->. reflexivity.
  - intros [H|H]; rewrite H; [reflexivity|].
    destruct (Py.int (setting_or "daily_reset_quota_vip" "1000000" w));
      reflexivity.
  - apply get_daily_reset_settings_settings.
  - apply get_daily_reset_settings_users.
  - apply (serve_sessions GetDailyResetSettings req w).
Qed.

Lemma serve_settings_others c req :
  (forall payload, c <> SetDailyResetSettings payload) ->
  keeps same_settings (serve c req).
Proof.
  intros Hc. destruct c; cbn [serve];
    try solve [unfold get_daily_reset_settings, trigger_daily_reset_now,
                 get_user_info, update_user_group_api, increment_quota_api,
                 reset_quota_api; frame].
  exfalso. exact (Hc payload eq_refl).
Qed.

(** X5.  The stored settings change through the settings route only: no
    other protected route, no run of the job and no login attempt changes
    them, whatever the server does. *)
Theorem settings_change_only_by_their_route c req w :
  (forall payload, c <> SetDailyResetSettings payload) ->
  settings (snd (serve c req w)) = settings w /\
  (forall trig, settings (snd (daily_reset trig w)) = settings w) /\
  (forall pw payload rnd now,
      settings (snd (admin_login pw payload rnd now w)) = settings w).
Proof.
  intros Hc. split; [|split].
  - apply (serve_settings_others c req Hc w).
  - intros trig. apply daily_reset_settings.
  - intros pw payload rnd now. apply admin_login_settings.
Qed.

(** ** Login and the admin check *)

(** X6.  A login with a password other than the configured one (the
    variable ADMIN_PASSWORD, "admin123" when it is unset) raises 401 and
    leaves the world exactly as it was: no session row, nothing sent to a
    store. *)
Theorem wrong_password_changes_nothing env payload rnd now w :
  AdminLoginPayload.password payload <> ADMIN_PASSWORD env ->
  admin_login (ADMIN_PASSWORD env) payload rnd now w
  = (Raise (HTTPException 401 "Invalid admin password"), w) /\
  (env !! "ADMIN_PASSWORD" = None -> ADMIN_PASSWORD env = "admin123").
Proof.
  intros H. split.
  - apply admin_login_wrong, H.
  - intros Hn. unfold ADMIN_PASSWORD, getenv. rewrite Hn. reflexivity.
Qed.

Lemma hex_digit_is_hex n : is_hex_digit (Py.hex_digit n) = true.
Proof.
  destruct n as [|p]; [reflexivity|].
  do 4 (try destruct p as [p|p|]); try reflexivity.
Qed.

Lemma hex_length bs : String.length (Py.hex bs) = (2 * length bs)%nat.
Proof. induction bs as [|b r IH]; cbn; [reflexivity|]. rewrite IH. lia. Qed.

Lemma hex_digits bs :
  forallb is_hex_digit (list_ascii_of_string (Py.hex bs)) = true.
Proof.
  induction bs as [|b r IH]; [reflexivity|].
  cbn [Py.hex list_ascii_of_string forallb].
  rewrite !hex_digit_is_hex, IH. reflexivity.
Qed.

(** X7.  The token a login issues is 32 characters long, all of them
    lowercase hexadecimal digits: two for each of the sixteen bytes the
    login draws from the random source, the first sixteen it hands out. *)
Theorem login_token_format pw payload rnd now w tok w' :
  admin_login pw payload rnd now w = (Ok (TokenBody tok), w') ->
  String.length tok = 32%nat /\
  forallb is_hex_digit (list_ascii_of_string tok) = true /\
  tok = Py.hex (map rnd (seq 0 16)).
Proof.
  intros H.
  destruct (string_dec (AdminLoginPayload.password payload) pw) as [E|E].
  - rewrite (admin_login_ok pw payload rnd now w E) in H.
    assert (Ht : tok = Py.hex (Py.urandom rnd 16)) by congruence.
    rewrite Ht. split; [rewrite hex_length; reflexivity|].
    split; [apply hex_digits|reflexivity].
  - rewrite (admin_login_wrong pw payload rnd now w E) in H. discriminate H.
Qed.

Lemma run_valid_mono pw es w tok :
  is_valid_token tok (sessions w) = true ->
  is_valid_token tok (sessions (fst (run pw es w))) = true.
Proof. intros H. apply run_valid. left. exact H. Qed.

(** X8.  Sessions never end: a request that passes the admin check
    passes it again after any further history of logins, calls and
    scheduled runs; there is no expiry and no logout. *)
Theorem admitted_request_stays_admitted pw es req w :
  fst (require_admin_auth req w) = Ok tt ->
  fst (require_admin_auth req (fst (run pw es w))) = Ok tt.
Proof.
  intros H. destruct (require_admin_auth req w) as [r w1] eqn:E.
  cbn [fst] in H. subst r.
  destruct (require_admin_auth_ok req w w1 E) as (h & Hh & Hp & Hv & _).
  destruct req as [a]. cbn in Hh. subst a.
  rewrite require_admin_auth_accepts; [reflexivity|exact Hp|].
  apply run_valid_mono, Hv.
Qed.

(** X9.  The admin check passes exactly when the Authorization header is
    present, starts with "Bearer " and what follows the seventh character
    is the token of a session row; otherwise it raises the one 403; and in
    both cases it leaves sessions, settings and users as they were. *)
Theorem require_admin_auth_exactly req w :
  (fst (require_admin_auth req w) = Ok tt <->
   exists h,
     authorization req = Some h /\ Py.startswith h "Bearer " = true /\
     exists r, In r (sessions w) /\ token r = Py.slice_from 7 h) /\
  (fst (require_admin_auth req w) = Ok tt \/
   fst (require_admin_auth req w)
   = Raise (HTTPException 403 "Admin access required")) /\
  sessions (snd (require_admin_auth req w)) = sessions w /\
  settings (snd (require_admin_auth req w)) = settings w /\
  users (snd (require_admin_auth req w)) = users w.
Proof.
  split; [|split; [|split; [|split]]].
  - split.
    + intros H. destruct (require_admin_auth req w) as [r w1] eqn:E.
      cbn [fst] in H. subst r.
      destruct (require_admin_auth_ok req w w1 E) as (h & Hh & Hp & Hv & _).
      exists h. repeat split; auto. apply is_valid_token_iff, Hv.
    + intros (h & Hh & Hp & Hr). destruct req as [a]. cbn in Hh. subst a.
      rewrite require_admin_auth_accepts; [reflexivity|exact Hp|].
      apply is_valid_token_iff, Hr.
  - unfold require_admin_auth. destruct (negb _); [right; reflexivity|].
    unfold bind, select_session. cbn -[Py.slice_from session_lookup].
    destruct (session_lookup _ _); [left|right]; reflexivity.
  - apply require_admin_auth_sessions.
  - apply require_admin_auth_settings.
  - apply require_admin_auth_users.
Qed.

(** ** The three updates *)

Lemma mutate_quiet m w :
  pg_faults w = [] ->
  fst (mutate m w) = (if accepted m then Ok tt else Raise ValueError) /\
  users (snd (mutate m w)) = applied m (users w) /\
  pg_faults (snd (mutate m w)) = [] /\
  settings (snd (mutate m w)) = settings w /\
  sessions (snd (mutate m w)) = sessions w.
Proof.
  intros Hq. destruct m; cbn [mutate]; unfold applied, accepted;
    cbn [statement quotable].
  - destruct (has_nul g) eqn:Hg; cbn [negb].
    + rewrite (update_user_group_refused w _ _ Hq Hg). auto.
    + rewrite (update_user_group_quiet w _ _ Hq Hg). auto.
  - rewrite (increment_user_quota_quiet w _ _ Hq). auto.
  - rewrite (reset_user_quota_quiet w _ _ Hq). auto.
Qed.

Lemma mutate_outcome m w :
  (fst (mutate m w) = Ok tt /\ accepted m = true /\
   users (snd (mutate m w)) = mutated m (users w)) \/
  (fst (mutate m w) = Raise OperationalError /\
   users (snd (mutate m w)) = users w) \/
  (fst (mutate m w) = Raise ValueError /\ accepted m = false /\
   users (snd (mutate m w)) = users w).
Proof.
  destruct w as [ss st us fs j out].
  destruct m; cbn [mutate]; unfold accepted; cbn [statement quotable];
    unfold update_user_group, increment_user_quota, reset_user_quota, execute;
    cbn [quotable]; try destruct (has_nul g); cbn [negb];
    unfold_pg; cbn;
    destruct fs as [|[|[|[|?]]] ?]; cbn; auto 6.
Qed.

Lemma mutated_rows m t :
  Forall2 (fun u u' => u' = u \/ (selected (target m) u = true /\ u' = effect m u))
          t (mutated m t).
Proof.
  unfold mutated, update_where. induction t as [|u t IH]; cbn; constructor;
    [|exact IH].
  destruct (selected (target m) u); auto.
Qed.

Lemma mutate_rows m w :
  Forall2 (fun u u' => u' = u \/ (selected (target m) u = true /\ u' = effect m u))
          (users w) (users (snd (mutate m w))).
Proof.
  destruct (mutate_outcome m w) as [(_ & _ & ->) | [[_ ->] | (_ & _ & ->)]].
  - apply mutated_rows.
  - induction (users w); constructor; auto.
  - induction (users w); constructor; auto.
Qed.

Lemma accepted_false m :
  accepted m = false <->
  exists user_id g, m = SetGroup user_id g /\ has_nul g = true.
Proof.
  unfold accepted. destruct m; cbn [statement quotable]; split.
  - intros H. exists user_id, g. split; [reflexivity|].
    destruct (has_nul g); [reflexivity|discriminate H].
  - intros (i & g' & [= -> ->] & ->). reflexivity.
  - intros H. discriminate H.
  - intros (i & g' & H & _). discriminate H.
  - intros H. discriminate H.
  - intros (i & g' & H & _). discriminate H.
Qed.

(** X10.  Each update has one of three outcomes, whatever the server
    does: it returns, with the table changed by exactly its one
    statement; it raises the server's error, with the table as it was;
    or it raises [ValueError], with the table as it was, which happens
    only to a group change whose text contains the NUL character.  On a
    server that answers, the update returns unless its text is so
    refused. *)
Theorem update_commits_or_fails m w :
  ((fst (mutate m w) = Ok tt /\ accepted m = true /\
    users (snd (mutate m w))
    = map (fun u => if selected (target m) u then effect m u else u)
          (users w)) \/
   (fst (mutate m w) = Raise OperationalError /\
    users (snd (mutate m w)) = users w) \/
   (fst (mutate m w) = Raise ValueError /\ accepted m = false /\
    users (snd (mutate m w)) = users w)) /\
  (accepted m = false <->
   exists user_id g, m = SetGroup user_id g /\ has_nul g = true) /\
  (pg_faults w = [] ->
   fst (mutate m w) = if accepted m then Ok tt else Raise ValueError).
Proof.
  split; [exact (mutate_outcome m w)|]. split; [apply accepted_false|].
  intros Hq. apply (mutate_quiet m w Hq).
Qed.

(** X12.  An update under one id never changes a row with another id,
    whatever the server does. *)
Theorem updates_touch_only_their_id m w i u :
  users w !! i = Some u ->
  uid u <> target m ->
  users (snd (mutate m w)) !! i = Some u.
Proof.
  intros Hi Hne.
  destruct (Forall2_lookup_l _ _ _ _ _ (mutate_rows m w) Hi)
    as (u' & Hi' & [-> | [Hsel _]]); [exact Hi'|].
  unfold selected in Hsel. apply andb_true_iff in Hsel as [Hid _].
  apply Z.eqb_eq in Hid. contradiction.
Qed.

(** X13.  An update writes its own columns only, whatever the server
    does: every row keeps its place, id, names and deletion mark; a group
    change keeps quota and used_quota, an increment keeps group and
    used_quota, a reset keeps the group. *)
Theorem updates_keep_other_columns m w i u :
  users w !! i = Some u ->
  length (users (snd (mutate m w))) = length (users w) /\
  exists u',
    users (snd (mutate m w)) !! i = Some u' /\
    uid u' = uid u /\ username u' = username u /\
    display_name u' = display_name u /\ deleted_at u' = deleted_at u /\
    match m with
    | SetGroup _ _ => quota u' = quota u /\ used_quota u' = used_quota u
    | AddQuota _ _ => group u' = group u /\ used_quota u' = used_quota u
    | ResetQuota _ _ => group u' = group u
    end.
Proof.
  intros Hi. split.
  - symmetry. apply (Forall2_length _ _ _ (mutate_rows m w)).
  - destruct (Forall2_lookup_l _ _ _ _ _ (mutate_rows m w) Hi)
      as (u' & Hi' & [-> | [_ ->]]).
    + exists u. destruct m; auto 10.
    + exists (effect m u). destruct m; cbn; auto 10.
Qed.

Lemma bind_raises {A B} (m : M A) (k : A -> M B) w e :
  fst (bind m k w) = Raise e ->
  (fst (m w) = Raise e /\ snd (bind m k w) = snd (m w)) \/
  (exists a, fst (m w) = Ok a /\ fst (k a (snd (m w))) = Raise e /\
             snd (bind m k w) = snd (k a (snd (m w)))).
Proof.
  unfold bind. destruct (m w) as [[a|e'] w1]; cbn.
  - intros H. right. exists a. auto.
  - intros [= ->]. left. auto.
Qed.

Lemma after_auth {B} (k : M B) req w :
  (exists e, fst (require_admin_auth req w) = Raise e /\
             (require_admin_auth req >> k) w
             = (Raise e, snd (require_admin_auth req w))) \/
  (fst (require_admin_auth req w) = Ok tt /\
   (require_admin_auth req >> k) w = k (snd (require_admin_auth req w))).
Proof.
  unfold bind. destruct (require_admin_auth req w) as [[[]|e] w1]; cbn.
  - right. auto.
  - left. exists e. auto.
Qed.

Lemma daily_reset_never_raises trig w : fst (daily_reset trig w) = Ok tt.
Proof.
  unfold daily_reset, try_except, bind, print.
  destruct (daily_reset_body (emit (LogStart trig) w)) as [[[]|e] w2];
    reflexivity.
Qed.

Lemma mutate_then_ok_raises m w1 e :
  fst ((mutate m >> ret OkBody) w1) = Raise e ->
  users (snd ((mutate m >> ret OkBody) w1)) = users w1.
Proof.
  unfold bind, ret.
  destruct (mutate_outcome m w1) as [(Hr & _ & Hu) | [[Hr Hu] | (Hr & _ & Hu)]];
    destruct (mutate m w1) as [[[]|e'] w2]; cbn in *;
    try discriminate; auto.
Qed.

(** X11.  An error response means nothing was changed: when a protected
    route raises, for whatever reason (the admin check, a negative quota,
    an unknown user, the server), users, settings and sessions are what
    they were before the call. *)
Theorem error_response_changes_nothing c req w e :
  fst (serve c req w) = Raise e ->
  users (snd (serve c req w)) = users w /\
  settings (snd (serve c req w)) = settings w /\
  sessions (snd (serve c req w)) = sessions w.
Proof.
  intros Hr. split; [|split]; [| |apply serve_sessions].
  - pose proof (require_admin_auth_users req w) as Hu.
    unfold same_users in Hu.
    destruct c; cbn [serve] in *.
    + apply get_daily_reset_settings_users.
    + unfold set_daily_reset_settings in *.
      destruct (after_auth
                  (if (DailyResetSettingsPayload.vip_quota payload <? 0)%Z
                      || (DailyResetSettingsPayload.default_quota payload <? 0)%Z
                   then raise (HTTPException 400 "Quota cannot be negative")
                   else
                     set_setting "daily_reset_quota_vip"
                       (Py.str (DailyResetSettingsPayload.vip_quota payload)) >>
                     set_setting "daily_reset_quota_default"
                       (Py.str (DailyResetSettingsPayload.default_quota payload)) >>
                     ret (OkMessageBody "Settings saved successfully."))
                  req w) as [(e' & _ & ->) | [_ ->]]; [exact Hu|].
      rewrite <- Hu. destruct (_ || _); reflexivity.
    + unfold trigger_daily_reset_now in *.
      destruct (after_auth
                  (daily_reset "manual" >>
                   ret (OkMessageBody
                          "Immediate reset task has been triggered successfully."))
                  req w) as [(e' & _ & ->) | [_ E]]; [exact Hu|].
      rewrite E in Hr. exfalso. revert Hr. unfold bind at 1.
      pose proof (daily_reset_never_raises "manual"
                    (snd (require_admin_auth req w))) as Hj.
      destruct (daily_reset "manual" (snd (require_admin_auth req w)))
        as [[[]|?] ?]; cbn in Hj |- *; intros H;
        [discriminate H|discriminate Hj].
    + unfold get_user_info. 
      assert (K : keeps same_users
                    (require_admin_auth req >>
                     let! u := get_user_by_id user_id in ret (UserBody u)))
        by frame.
      apply K.
    + unfold update_user_group_api in *.
      destruct (after_auth
                  (mutate (SetGroup (UserGroupUpdatePayload.user_id payload)
                             (UserGroupUpdatePayload.group payload)) >>
                   ret OkBody) req w) as [(e' & _ & E) | [_ E]];
        cbn [mutate] in E; rewrite E in *; [exact Hu|].
      rewrite <- Hu.
      exact (mutate_then_ok_raises
               (SetGroup (UserGroupUpdatePayload.user_id payload)
                (UserGroupUpdatePayload.group payload)) _ e Hr).
    + unfold increment_quota_api in *.
      destruct (after_auth
                  (mutate (AddQuota (UserQuotaUpdatePayload.user_id payload)
                             (UserQuotaUpdatePayload.delta payload)) >>
                   ret OkBody) req w) as [(e' & _ & E) | [_ E]];
        cbn [mutate] in E; rewrite E in *; [exact Hu|].
      rewrite <- Hu.
      exact (mutate_then_ok_raises
               (AddQuota (UserQuotaUpdatePayload.user_id payload)
                (UserQuotaUpdatePayload.delta payload)) _ e Hr).
    + unfold reset_quota_api in *.
      destruct (after_auth
                  (mutate (ResetQuota (UserQuotaResetPayload.user_id payload)
                             (UserQuotaResetPayload.quota payload)) >>
                   ret OkBody) req w) as [(e' & _ & E) | [_ E]];
        cbn [mutate] in E; rewrite E in *; [exact Hu|].
      rewrite <- Hu.
      exact (mutate_then_ok_raises
               (ResetQuota (UserQuotaResetPayload.user_id payload)
                (UserQuotaResetPayload.quota payload)) _ e Hr).
  - destruct c as [|p| |user_id|p|p|p];
      try solve [refine (serve_settings_others _ req _ w); discriminate].
    cbn [serve] in *.
    pose proof (require_admin_auth_settings req w) as Hs.
    unfold same_settings in Hs.
    destruct (require_admin_auth req w) as [[[]|e'] w1] eqn:Hauth;
      cbn [snd] in Hs.
    + rewrite (set_daily_reset_settings_run p req w w1 Hauth) in *.
      destruct (_ || _); [exact Hs|discriminate Hr].
    + change (set_daily_reset_settings p req w)
        with (serve (SetDailyResetSettings p) req w).
      rewrite (serve_after_rejection _ req w e' w1 Hauth). exact Hs.
Qed.

Lemma get_after_mutate m w :
  pg_faults w = [] ->
  fst (get_user_by_id (target m) (snd (mutate m w)))
  = match List.find (selected (target m)) (users w) with
    | Some row => Ok (dict (if accepted m then effect m row else row))
    | None => Raise (HTTPException 404 "User not found or has been deleted")
    end.
Proof.
  intros Hq. destruct (mutate_quiet m w Hq) as (_ & Hu & Hq' & _).
  rewrite (get_user_by_id_quiet _ _ Hq'). cbn [fst]. rewrite Hu.
  unfold applied. destruct (accepted m); [|reflexivity].
  unfold mutated. rewrite find_selected_updated.
  - destruct (List.find _ (users w)); reflexivity.
  - intros u. destruct m; split; reflexivity.
Qed.

Lemma get_before w user_id info :
  pg_faults w = [] ->
  fst (get_user_by_id user_id w) = Ok info ->
  exists row, List.find (selected user_id) (users w) = Some row /\
              info = dict row.
Proof.
  intros Hq. rewrite (get_user_by_id_quiet w user_id Hq). cbn [fst].
  destruct (List.find _ (users w)) as [row|]; [|intros H; discriminate H].
  intros [= <-]. eauto.
Qed.

(** X14.  A group change is read back: on a server that answers, when
    [get_user_by_id] returns a user, then after [update_user_group] it
    returns the same user with the new group and every other field,
    quota and used_quota included, as before.  Any text without the NUL
    character is taken as group; for a text with it the update raises
    [ValueError] and the user is read back with the group it had. *)
Theorem group_is_read_back user_id g w info :
  pg_faults w = [] ->
  fst (get_user_by_id user_id w) = Ok info ->
  fst (update_user_group user_id g w)
  = (if has_nul g then Raise ValueError else Ok tt) /\
  fst (get_user_by_id user_id (snd (update_user_group user_id g w)))
  = Ok (mk_info (info_id info) (info_username info)
                (info_display_name info)
                (if has_nul g then info_group info else g)
                (info_quota info) (info_used_quota info)).
Proof.
  intros Hq Hget. destruct (get_before w user_id info Hq Hget) as (row & Hf & ->).
  pose proof (get_after_mutate (SetGroup user_id g) w Hq) as H.
  destruct (mutate_quiet (SetGroup user_id g) w Hq) as (Hr & _).
  unfold accepted in H, Hr. cbn [target mutate effect statement quotable] in H, Hr.
  rewrite H, Hr, Hf. destruct (has_nul g); split; reflexivity.
Qed.

(** X15.  An increment is read back: on a server that answers, when
    [get_user_by_id] returns a user, then after [increment_user_quota]
    by delta it returns the same user with quota + delta, used_quota and
    the other fields as before. *)
Theorem increment_is_read_back user_id delta w info :
  pg_faults w = [] ->
  fst (get_user_by_id user_id w) = Ok info ->
  fst (get_user_by_id user_id (snd (increment_user_quota user_id delta w)))
  = Ok (mk_info (info_id info) (info_username info)
                (info_display_name info) (info_group info)
                (info_quota info + delta) (info_used_quota info)).
Proof.
  intros Hq Hget. destruct (get_before w user_id info Hq Hget) as (row & Hf & ->).
  pose proof (get_after_mutate (AddQuota user_id delta) w Hq) as H.
  unfold accepted in H. cbn [target mutate effect statement quotable] in H.
  rewrite H, Hf. reflexivity.
Qed.

Lemma users_after_two m1 m2 w :
  pg_faults w = [] ->
  users (snd (mutate m2 (snd (mutate m1 w))))
  = applied m2 (applied m1 (users w)).
Proof.
  intros Hq. destruct (mutate_quiet m1 w Hq) as (_ & Hu1 & Hq1 & _).
  destruct (mutate_quiet m2 _ Hq1) as (_ & Hu2 & _). rewrite Hu2, Hu1.
  reflexivity.
Qed.

Lemma mutated_twice m1 m2 t :
  mutated m2 (mutated m1 t)
  = map (fun u => if selected (target m2) u
                  then effect m2 (if selected (target m1) u
                                  then effect m1 u else u)
                  else if selected (target m1) u then effect m1 u else u) t.
Proof.
  unfold mutated, update_where. rewrite map_map. apply map_ext. intros u.
  assert (E : selected (target m2)
                (if selected (target m1) u then effect m1 u else u)
              = selected (target m2) u).
  { destruct (selected (target m1) u); [|reflexivity].
    destruct m1; reflexivity. }
  rewrite E. reflexivity.
Qed.

Lemma with_quota_added_zero u : with_quota_added 0 u = u.
Proof. destruct u. unfold with_quota_added. cbn. f_equal. lia. Qed.

(** X16.  An increment is undone by the opposite increment: on a server
    that answers, adding delta and then -delta under the same id leaves
    the users table exactly as it was. *)
Theorem increment_undone user_id delta w :
  pg_faults w = [] ->
  users (snd (increment_user_quota user_id (- delta)
                (snd (increment_user_quota user_id delta w))))
  = users w.
Proof.
  intros Hq.
  pose proof (users_after_two (AddQuota user_id delta)
                (AddQuota user_id (- delta)) w Hq) as H.
  cbn [mutate] in H. rewrite H.
  unfold applied, accepted; cbn [statement quotable].
  rewrite mutated_twice.
  transitivity (map (fun u : user_row => u) (users w)); [|apply map_id].
  apply map_ext. intros u. cbn [target effect].
  destruct (selected user_id u); [|reflexivity].
  rewrite with_quota_added_twice.
  replace (delta + - delta) with 0 by lia. apply with_quota_added_zero.
Qed.

(** X17.  A reset overrides what came before it: on a server that
    answers, a reset to Q after an increment, or after another reset,
    under the same id leaves the table as the reset to Q alone does. *)
Theorem reset_overrides user_id Q w :
  pg_faults w = [] ->
  (forall delta,
      users (snd (reset_user_quota user_id Q
                    (snd (increment_user_quota user_id delta w))))
      = users (snd (reset_user_quota user_id Q w))) /\
  (forall Q',
      users (snd (reset_user_quota user_id Q
                    (snd (reset_user_quota user_id Q' w))))
      = users (snd (reset_user_quota user_id Q w))).
Proof.
  intros Hq.
  destruct (mutate_quiet (ResetQuota user_id Q) w Hq) as (_ & Hu & _).
  cbn [mutate] in Hu. rewrite Hu.
  unfold applied, accepted; cbn [statement quotable].
  split; [intros delta|intros Q'].
  - pose proof (users_after_two (AddQuota user_id delta)
                  (ResetQuota user_id Q) w Hq) as H.
    cbn [mutate] in H. rewrite H.
    unfold applied, accepted; cbn [statement quotable]. rewrite mutated_twice.
    apply map_ext. intros u. cbn [target effect].
    destruct (selected user_id u); reflexivity.
  - pose proof (users_after_two (ResetQuota user_id Q')
                  (ResetQuota user_id Q) w Hq) as H.
    cbn [mutate] in H. rewrite H.
    unfold applied, accepted; cbn [statement quotable]. rewrite mutated_twice.
    apply map_ext. intros u. cbn [target effect].
    destruct (selected user_id u); reflexivity.
Qed.

(** X18.  Updates under different ids do not interfere: on a server that
    answers, any two of the three updates, made under two different ids,
    leave the same users table in either order. *)
Theorem updates_of_other_ids_commute m1 m2 w :
  pg_faults w = [] ->
  target m1 <> target m2 ->
  users (snd (mutate m2 (snd (mutate m1 w))))
  = users (snd (mutate m1 (snd (mutate m2 w)))).
Proof.
  intros Hq Hne.
  rewrite (users_after_two m1 m2 w Hq), (users_after_two m2 m1 w Hq).
  unfold applied. destruct (accepted m1), (accepted m2); try reflexivity.
  rewrite !mutated_twice. apply map_ext. intros u.
  unfold selected.
  destruct (uid u =? target m1)%Z eqn:E1, (uid u =? target m2)%Z eqn:E2;
    cbn [andb]; try reflexivity; try (destruct (live u); reflexivity).
  apply Z.eqb_eq in E1, E2. congruence.
Qed.

Lemma get_user_by_id_outcome user_id w :
  fst (get_user_by_id user_id w)
  = match List.find (selected user_id) (users w) with
    | Some row => Ok (dict row)
    | None => Raise (HTTPException 404 "User not found or has been deleted")
    end \/
  fst (get_user_by_id user_id w) = Raise OperationalError.
Proof.
  destruct w as [ss st us fs j out].
  unfold get_user_by_id, postgres_conn, execute, close, try_finally, bind,
    ret, raise, pg_interact.
  cbn -[fetchone List.firstn List.filter].
  destruct fs as [|[|[|?]] ?]; cbn -[fetchone List.firstn List.filter];
    rewrite ?fetchone_first; auto;
    destruct (List.find (selected user_id) us); auto.
Qed.

(** X19.  [get_user_by_id] only ever returns a live row of the table
    carrying the id asked for (the first in table order), and it never
    changes users, settings or sessions; this holds whatever the server
    does. *)
Theorem get_user_by_id_sound user_id w info :
  fst (get_user_by_id user_id w) = Ok info ->
  (exists row,
      In row (users w) /\ uid row = user_id /\ deleted_at row = None /\
      info = dict row /\
      List.find (selected user_id) (users w) = Some row) /\
  users (snd (get_user_by_id user_id w)) = users w /\
  settings (snd (get_user_by_id user_id w)) = settings w /\
  sessions (snd (get_user_by_id user_id w)) = sessions w.
Proof.
  intros H. split; [|split; [|split]].
  - destruct (get_user_by_id_outcome user_id w) as [E|E]; rewrite E in H;
      [|discriminate H].
    destruct (List.find (selected user_id) (users w)) as [row|] eqn:F;
      [|discriminate H].
    injection H as <-. exists row.
    destruct (find_some _ _ F) as [Hin Hsel]. unfold selected, live in Hsel.
    apply andb_true_iff in Hsel as [Hid Hl]. apply Z.eqb_eq in Hid.
    destruct (deleted_at row); [discriminate Hl|]. auto.
  - apply get_user_by_id_users.
  - apply get_user_by_id_settings.
  - apply get_user_by_id_sessions.
Qed.

(** ** More on the reset job *)

Lemma Forall2_compose {A} (R : A -> A -> Prop) :
  (forall x y z, R x y -> R y z -> R x z) ->
  forall l1 l2 l3, Forall2 R l1 l2 -> Forall2 R l2 l3 -> Forall2 R l1 l3.
Proof.
  intros HR l1 l2 l3 H12. revert l3.
  induction H12; intros l3 H23; inversion H23; subst; constructor; eauto.
Qed.

Lemma Forall2_same {A} (R : A -> A -> Prop) (l : list A) :
  (forall x, R x x) -> Forall2 R l l.
Proof. intros HR. induction l; constructor; auto. Qed.

Lemma same_identity_refl u : same_identity u u.
Proof. repeat split. Qed.

Lemma same_identity_trans a b c :
  same_identity a b -> same_identity b c -> same_identity a c.
Proof.
  unfold same_identity. intros (?&?&?&?&?) (?&?&?&?&?).
  repeat split; congruence.
Qed.

Lemma rows_identity_refl w : rows_related same_identity w w.
Proof. apply Forall2_same, same_identity_refl. Qed.

Lemma rows_identity_trans a b c :
  rows_related same_identity a b -> rows_related same_identity b c ->
  rows_related same_identity a c.
Proof. apply Forall2_compose, same_identity_trans. Qed.

Lemma keeps_users_identity {A} (m : M A) :
  keeps same_users m -> keeps (rows_related same_identity) m.
Proof.
  intros H w. unfold rows_related. rewrite (H w).
  apply Forall2_same, same_identity_refl.
Qed.

Lemma reset_user_quota_identity i q :
  keeps (rows_related same_identity) (reset_user_quota i q).
Proof.
  intros w. unfold rows_related.
  eapply Forall2_impl; [apply (mutate_rows (ResetQuota i q) w)|].
  intros u u' [-> | [_ ->]]; repeat split.
Qed.

#[local] Hint Resolve rows_identity_refl rows_identity_trans
  reset_user_quota_identity : frame.
#[local] Hint Extern 5 (keeps (rows_related same_identity) _) =>
  apply keeps_users_identity : frame.

Lemma daily_reset_identity trig :
  keeps (rows_related same_identity) (daily_reset trig).
Proof. unfold daily_reset, daily_reset_body. frame. Qed.

(** X20.  A run of the job, complete or not and whatever the server and
    the settings are, writes quota and used_quota only: the table keeps
    its length and every row its place, id, names, group and deletion
    mark; settings and sessions are not touched, and the run returns. *)
Theorem daily_reset_writes_quotas_only trig w :
  fst (daily_reset trig w) = Ok tt /\
  length (users (snd (daily_reset trig w))) = length (users w) /\
  (forall i u,
      users w !! i = Some u ->
      exists u',
        users (snd (daily_reset trig w)) !! i = Some u' /\
        uid u' = uid u /\ username u' = username u /\
        display_name u' = display_name u /\ group u' = group u /\
        deleted_at u' = deleted_at u) /\
  settings (snd (daily_reset trig w)) = settings w /\
  sessions (snd (daily_reset trig w)) = sessions w.
Proof.
  pose proof (daily_reset_identity trig w) as H. unfold rows_related in H.
  split; [apply daily_reset_never_raises|].
  split; [symmetry; apply (Forall2_length _ _ _ H)|].
  split; [|split; [apply daily_reset_settings|apply daily_reset_sessions]].
  intros i u Hi.
  destruct (Forall2_lookup_l _ _ _ _ _ H Hi) as (u' & Hi' & Hid).
  exists u'. split; [exact Hi'|exact Hid].
Qed.

Lemma reset_loop_step V D c r w :
  for_each (c :: r) (loop_body V D) w
  = match reset_user_quota (uid c) (quota_for V D (group c)) w with
    | (Ok _, w1) => for_each r (loop_body V D) (emit (reset_line V D c) w1)
    | (Raise e, w1) => (Raise e, w1)
    end.
Proof.
  cbn [for_each]. unfold bind at 1. unfold loop_body at 1. unfold bind at 1.
  destruct (reset_user_quota _ _ w) as [[[]|e] w1]; reflexivity.
Qed.

(** One reset of the loop goes through, or raises the server's error
    with the table as it was; it prints nothing. *)
Lemma reset_user_quota_outcome i q w :
  (fst (reset_user_quota i q w) = Ok tt /\
   users (snd (reset_user_quota i q w))
   = update_where (selected i) (with_quota_reset q) (users w) /\
   stdout (snd (reset_user_quota i q w)) = stdout w) \/
  (fst (reset_user_quota i q w) = Raise OperationalError /\
   users (snd (reset_user_quota i q w)) = users w /\
   stdout (snd (reset_user_quota i q w)) = stdout w).
Proof.
  destruct w as [ss st us fs j out]. unfold_pg. cbn.
  destruct fs as [|[|[|[|?]]] ?]; cbn; auto.
Qed.

Lemma reset_loop_any V D cands : forall w,
  exists p rest,
    cands = (p ++ rest)%list /\
    users (snd (for_each cands (loop_body V D) w))
    = fold_left (reset_step V D) p (users w) /\
    (fst (for_each cands (loop_body V D) w) = Ok tt -> rest = []) /\
    stdout (snd (for_each cands (loop_body V D) w))
    = (stdout w ++ map (reset_line V D) p)%list /\
    (fst (for_each cands (loop_body V D) w) = Ok tt \/
     fst (for_each cands (loop_body V D) w) = Raise OperationalError /\
     rest <> []).
Proof.
  induction cands as [|c r IH]; intros w.
  - exists [], []. cbn. rewrite app_nil_r. auto 6.
  - rewrite reset_loop_step.
    pose proof (reset_user_quota_outcome
                  (uid c) (quota_for V D (group c)) w) as Ho.
    destruct (reset_user_quota (uid c) (quota_for V D (group c)) w)
      as [[[]|e] w1]; cbn [fst snd] in Ho.
    + destruct Ho as [(_ & Hu & Hout) | (Hr & _)]; [|discriminate Hr].
      destruct (IH (emit (reset_line V D c) w1))
        as (p & rest & -> & Hp & Hd & Ho & Hend).
      exists (c :: p), rest. split; [reflexivity|].
      split; [|split; [exact Hd|split; [|exact Hend]]].
      * rewrite Hp. cbn [fold_left users emit]. rewrite Hu. reflexivity.
      * rewrite Ho. cbn [stdout emit map]. rewrite Hout, <- app_assoc.
        reflexivity.
    + destruct Ho as [(Hr & _) | (Hr & Hu & Hout)]; [discriminate Hr|].
      injection Hr as ->.
      exists [], (c :: r). cbn. rewrite app_nil_r.
      split; [reflexivity|]. split; [exact Hu|].
      split; [intros H; discriminate H|]. split; [exact Hout|].
      right. split; [reflexivity|]. intros H; discriminate H.
Qed.

Lemma daily_reset_shape trig w V D :
  Py.int (setting_or "daily_reset_quota_vip" "1000000" w) = Some V ->
  Py.int (setting_or "daily_reset_quota_default" "50000" w) = Some D ->
  users (snd (daily_reset trig w)) = users w \/
  exists w2,
    users w2 = users w /\
    users (snd (daily_reset trig w))
    = users (snd (for_each (candidates (users w)) (loop_body V D) w2)).
Proof.
  intros HV HD. destruct w as [ss st us fs j out].
  unfold setting_or in HV, HD. cbn in HV, HD.
  unfold daily_reset, daily_reset_body, try_except, print, get_setting,
    py_int, postgres_conn, execute, close, pg_interact, bind, ret, candidates.
  cbn -[for_each]. rewrite HV. cbn -[for_each]. rewrite HD.
  destruct fs as [|[|[|n]] fs]; cbn -[for_each]; auto;
    change (fun user_row : user_row => _) with (loop_body V D);
    right;
    match goal with
    | |- context [for_each ?c ?b ?w2] =>
        exists w2; split; [reflexivity|];
        destruct (for_each c b w2) as [[[]|e] w3]; reflexivity
    end.
Qed.

(** A run with readable settings, up to its loop: either the server
    refused before the selection was made, or the loop ran and the line
    that ends the output tells how it ended. *)
Lemma daily_reset_trace trig w V D :
  Py.int (setting_or "daily_reset_quota_vip" "1000000" w) = Some V ->
  Py.int (setting_or "daily_reset_quota_default" "50000" w) = Some D ->
  (users (snd (daily_reset trig w)) = users w /\
   stdout (snd (daily_reset trig w))
   = (stdout w ++ [LogStart trig; LogFailed OperationalError])%list) \/
  exists w2,
    users w2 = users w /\
    stdout w2
    = (stdout w ++
       [LogStart trig; LogFound (length (candidates (users w)))])%list /\
    snd (daily_reset trig w)
    = emit (match fst (for_each (candidates (users w)) (loop_body V D) w2) with
            | Ok _ => LogDone
            | Raise e => LogFailed e
            end)
           (snd (for_each (candidates (users w)) (loop_body V D) w2)).
Proof.
  intros HV HD. destruct w as [ss st us fs j out].
  unfold setting_or in HV, HD. cbn in HV, HD.
  unfold daily_reset, daily_reset_body, try_except, print, get_setting,
    py_int, postgres_conn, execute, close, pg_interact, bind, ret, candidates.
  cbn -[for_each]. rewrite HV. cbn -[for_each]. rewrite HD.
  destruct fs as [|[|[|n]] fs]; cbn -[for_each];
    rewrite <- ?app_assoc; auto;
    change (fun user_row : user_row => _) with (loop_body V D);
    right;
    match goal with
    | |- context [for_each ?c ?b ?w2] =>
        exists w2; split; [reflexivity|];
        split; [cbn; rewrite <- ?app_assoc; reflexivity|];
        destruct (for_each c b w2) as [[[]|e] w3]; reflexivity
    end.
Qed.

(** X21.  A run has done what it printed, whatever the server does: the
    users the job selected split into those it reset and those it did
    not reach (up to the order in which the server returned them); the
    table is what the resets of the former, each complete, make of it,
    so that nothing is rolled back or half done; the reset lines printed
    name exactly the users reset, in the order of the resets; and the
    run ends with the completion line when no user is left and with the
    failure line otherwise.  (The quotas V and D are the ones read from
    the settings.) *)
Theorem daily_reset_does_what_it_prints trig w V D :
  Py.int (setting_or "daily_reset_quota_vip" "1000000" w) = Some V ->
  Py.int (setting_or "daily_reset_quota_default" "50000" w) = Some D ->
  exists done rest,
    Permutation (done ++ rest) (candidates (users w)) /\
    users (snd (daily_reset trig w))
    = fold_left
        (fun t c =>
           map (fun u => if selected (uid c) u
                         then with_quota_reset
                                (if String.eqb (group c) "vip" then V else D) u
                         else u) t)
        done (users w) /\
    ((done = [] /\
      stdout (snd (daily_reset trig w))
      = (stdout w ++ [LogStart trig; LogFailed OperationalError])%list) \/
     exists last,
       stdout (snd (daily_reset trig w))
       = (stdout w ++
          [LogStart trig; LogFound (length (candidates (users w)))] ++
          map (fun c => LogReset (Py.upper (group c)) (uid c)
                                 (if String.eqb (group c) "vip" then V else D))
              done ++
          [last])%list /\
       (last = LogDone /\ rest = [] \/
        last = LogFailed OperationalError /\ rest <> [])).
Proof.
  intros HV HD.
  change (fun (t : list user_row) (c : user_row) => _)
    with (reset_step V D).
  change (fun c : user_row => LogReset _ _ _) with (reset_line V D).
  destruct (daily_reset_trace trig w V D HV HD)
    as [[Hu Ho] | (w2 & Hu & Ho & ->)].
  - exists [], (candidates (users w)). split; [reflexivity|].
    split; [exact Hu|]. left. auto.
  - destruct (reset_loop_any V D (candidates (users w)) w2)
      as (p & rest & E & Hp & Hd & Hout & Hend).
    exists p, rest. split; [rewrite E; reflexivity|].
    cbn [users stdout emit]. rewrite Hp, Hu. split; [reflexivity|].
    right. rewrite Hout, Ho.
    destruct Hend as [Hok | [Hr Hrest]].
    + exists LogDone. rewrite Hok. rewrite <- !app_assoc.
      split; [reflexivity|]. left. auto.
    + exists (LogFailed OperationalError). rewrite Hr. rewrite <- !app_assoc.
      split; [reflexivity|]. right. auto.
Qed.

Lemma prefix_of_candidates t (p rest : list user_row) c :
  candidates t = (p ++ rest)%list -> In c p ->
  In c t /\ in_groups "vip" "default" c = true.
Proof.
  intros E Hc. assert (Hin : In c (candidates t)).
  { rewrite E. apply in_or_app. left. exact Hc. }
  unfold candidates in Hin. cbn in Hin. apply filter_In in Hin. exact Hin.
Qed.

Lemma partial_job_row V D t p rest u :
  NoDup (map uid t) ->
  candidates t = (p ++ rest)%list ->
  In u t ->
  fold_left (reset_in_row V D) p u = u \/
  (in_groups "vip" "default" u = true /\
   fold_left (reset_in_row V D) p u
   = with_quota_reset (quota_for V D (group u)) u).
Proof.
  intros Hnd E Hu. rewrite fold_reset_in_row.
  - destruct (live u && existsb (fun c => (uid c =? uid u)%Z) p) eqn:C;
      [right|left; reflexivity].
    split; [|reflexivity].
    apply andb_true_iff in C as [_ C].
    apply existsb_exists in C as (c & Hc & Eid). apply Z.eqb_eq in Eid.
    destruct (prefix_of_candidates t p rest c E Hc) as [Hin Hg].
    rewrite <- (NoDup_map_inj uid t c u Hnd Hin Hu Eid). exact Hg.
  - intros c Hc Eid.
    destruct (prefix_of_candidates t p rest c E Hc) as [Hin _].
    rewrite (NoDup_map_inj uid t c u Hnd Hin Hu Eid). reflexivity.
Qed.

(** X22.  A run never writes a wrong quota: with unique ids, whatever
    the server does, every row is afterwards either exactly as before or
    a live "vip"/"default" row reset to the quota of its own group with
    used_quota 0; in particular a row outside the two groups, or
    soft-deleted, is never changed. *)
Theorem daily_reset_never_writes_a_wrong_quota trig w V D i u :
  Py.int (setting_or "daily_reset_quota_vip" "1000000" w) = Some V ->
  Py.int (setting_or "daily_reset_quota_default" "50000" w) = Some D ->
  NoDup (map uid (users w)) ->
  users w !! i = Some u ->
  users (snd (daily_reset trig w)) !! i = Some u \/
  (deleted_at u = None /\
   (group u = "vip" \/ group u = "default") /\
   users (snd (daily_reset trig w)) !! i
   = Some (with_quota_reset (if String.eqb (group u) "vip" then V else D) u)).
Proof.
  intros HV HD Hnd Hi.
  assert (Hin : In u (users w)).
  { apply list_elem_of_In, list_elem_of_lookup. eauto. }
  destruct (daily_reset_shape trig w V D HV HD) as [-> | (w2 & Hu & ->)];
    [left; exact Hi|].
  destruct (reset_loop_any V D (candidates (users w)) w2)
    as (p & rest & E & Hp & _).
  rewrite Hp, Hu, fold_reset_step_rows.
  change map with (@fmap list _). rewrite list_lookup_fmap, Hi. cbn.
  destruct (partial_job_row V D (users w) p rest u Hnd E Hin)
    as [-> | [Hg ->]]; [left; reflexivity|right].
  unfold in_groups, live in Hg. apply andb_true_iff in Hg as [Hg Hl].
  split; [destruct (deleted_at u); [discriminate Hl|reflexivity]|].
  split; [|reflexivity].
  apply orb_true_iff in Hg as [Hg|Hg]; apply String.eqb_eq in Hg; auto.
Qed.

Lemma with_group_same u : with_group (group u) u = u.
Proof. destruct u. reflexivity. Qed.

(** X23.  The job follows the group an admin has set: on a server that
    answers and with unique ids, after [update_user_group] has been
    called for a live user with the text g, the user's group is g, or
    still the one it had when g contains the NUL character and the
    update was refused; a run of the job then leaves that user with the
    VIP quota when this group is "vip", with the default quota when it
    is "default", and with quota and used_quota untouched otherwise. *)
Theorem group_change_steers_the_job trig w V D i u g :
  pg_faults w = [] ->
  Py.int (setting_or "daily_reset_quota_vip" "1000000" w) = Some V ->
  Py.int (setting_or "daily_reset_quota_default" "50000" w) = Some D ->
  NoDup (map uid (users w)) ->
  users w !! i = Some u ->
  deleted_at u = None ->
  exists u' g',
    g' = (if has_nul g then group u else g) /\
    users (snd (daily_reset trig (snd (update_user_group (uid u) g w)))) !! i
    = Some u' /\
    uid u' = uid u /\ group u' = g' /\
    (g' = "vip" -> quota u' = V /\ used_quota u' = 0) /\
    (g' = "default" -> quota u' = D /\ used_quota u' = 0) /\
    (g' <> "vip" -> g' <> "default" ->
     quota u' = quota u /\ used_quota u' = used_quota u).
Proof.
  intros Hq HV HD Hnd Hi Hl.
  destruct (mutate_quiet (SetGroup (uid u) g) w Hq)
    as (_ & Hu1 & Hq1 & Hs1 & _).
  unfold applied, accepted in Hu1.
  cbn [mutate statement quotable] in Hu1, Hq1, Hs1.
  set (w1 := snd (update_user_group (uid u) g w)) in *.
  set (g' := if has_nul g then group u else g).
  rewrite <- (setting_or_same _ _ w w1 Hs1) in HV.
  rewrite <- (setting_or_same _ _ w w1 Hs1) in HD.
  assert (Hnd1 : NoDup (map uid (users w1))).
  { rewrite Hu1. destruct (has_nul g); cbn [negb]; [exact Hnd|].
    unfold mutated, update_where. rewrite map_map.
    erewrite map_ext; [exact Hnd|]. intros x. cbn.
    destruct (selected (uid u) x); reflexivity. }
  assert (Hi1 : users w1 !! i = Some (with_group g' u)).
  { rewrite Hu1. unfold g'. destruct (has_nul g); cbn [negb].
    - rewrite with_group_same. exact Hi.
    - unfold mutated, update_where.
      change map with (@fmap list _). rewrite list_lookup_fmap, Hi. cbn.
      unfold selected, live. rewrite Z.eqb_refl, Hl. reflexivity. }
  destruct (daily_reset_quiet trig w1 V D Hq1 HV HD) as (w2 & -> & _ & Hu2 & _).
  cbn [snd]. rewrite Hu2, (job_table V D _ Hnd1).
  exists (reset_row V D (with_group g' u)), g'.
  split; [reflexivity|].
  split; [apply lookup_map_reset_row, Hi1|].
  destruct (reset_row_shape V D (with_group g' u)) as (E1 & E2 & _).
  split; [exact E1|]. split; [exact E2|].
  unfold reset_row, in_groups, live, quota_for. cbn [group with_group deleted_at].
  rewrite Hl. split; [|split].
  - intros ->. cbn. auto.
  - intros ->. cbn. auto.
  - intros H1 H2. apply String.eqb_neq in H1, H2. rewrite H1, H2. cbn. auto.
Qed.

Lemma reset_line_of_candidate V D t c :
  In c (candidates t) ->
  reset_line V D c
  = if String.eqb (group c) "vip"
    then LogReset "VIP" (uid c) V
    else LogReset "DEFAULT" (uid c) D.
Proof.
  unfold candidates. cbn [pg_run snd]. intros Hc.
  apply filter_In in Hc as [_ Hg]. unfold in_groups in Hg.
  apply andb_true_iff in Hg as [Hg _]. unfold reset_line, quota_for.
  destruct (String.eqb_spec (group c) "vip") as [->|Hne]; [reflexivity|].
  cbn [orb] in Hg. apply String.eqb_eq in Hg. rewrite Hg. reflexivity.
Qed.

(** X24.  What a complete run prints: on a server that answers, the
    start line, the number of selected users, one line for each of them,
    in the order in which the server returned them, with the group in
    upper case and the quota given ("VIP" with the VIP quota, "DEFAULT"
    with the default quota), and the final line; nothing else. *)
Theorem daily_reset_prints_its_work trig w V D :
  pg_faults w = [] ->
  Py.int (setting_or "daily_reset_quota_vip" "1000000" w) = Some V ->
  Py.int (setting_or "daily_reset_quota_default" "50000" w) = Some D ->
  exists visited,
    Permutation visited (List.filter (in_groups "vip" "default") (users w)) /\
    stdout (snd (daily_reset trig w))
    = (stdout w ++
       [LogStart trig; LogFound (length visited)] ++
       map (fun c => if String.eqb (group c) "vip"
                     then LogReset "VIP" (uid c) V
                     else LogReset "DEFAULT" (uid c) D)
           visited ++
       [LogDone])%list.
Proof.
  intros Hq HV HD.
  destruct (daily_reset_quiet trig w V D Hq HV HD) as (w' & -> & _ & _ & Ho).
  exists (candidates (users w)). split; [reflexivity|].
  cbn [snd]. rewrite Ho. do 2 f_equal. f_equal.
  apply map_ext_in. intros c Hc.
  apply (reset_line_of_candidate V D (users w) c Hc).
Qed.

(** X25.  Settings that cannot be read stop the run before it reaches
    the users: when a stored quota is no numeral, the job prints the
    failure, returns, has sent nothing but the reads of the settings,
    and leaves users, settings and sessions as they were. *)
Theorem daily_reset_unreadable_settings trig w :
  Py.int (setting_or "daily_reset_quota_vip" "1000000" w) = None \/
  Py.int (setting_or "daily_reset_quota_default" "50000" w) = None ->
  fst (daily_reset trig w) = Ok tt /\
  users (snd (daily_reset trig w)) = users w /\
  settings (snd (daily_reset trig w)) = settings w /\
  sessions (snd (daily_reset trig w)) = sessions w /\
  pg_faults (snd (daily_reset trig w)) = pg_faults w /\
  stdout (snd (daily_reset trig w))
  = (stdout w ++ [LogStart trig; LogFailed ValueError])%list /\
  Forall (fun s => exists key, s = SelectSetting key)
         (drop (length (journal w)) (journal (snd (daily_reset trig w)))).
Proof.
  intros H. rewrite (daily_reset_bad_settings trig w H). cbn [fst snd].
  destruct (Py.int (setting_or "daily_reset_quota_vip" "1000000" w)); cbn;
    rewrite <- ?app_assoc, ?drop_app_length; repeat split; auto;
    repeat constructor; eauto.
Qed.

(** ** Through the routes *)

Lemma serve_route_of m req w w1 :
  require_admin_auth req w = (Ok tt, w1) ->
  serve (route_of m) req w = (mutate m >> ret OkBody) w1.
Proof.
  intros Hauth.
  destruct m; cbn [route_of serve mutate];
    unfold update_user_group_api, increment_quota_api, reset_quota_api;
    unfold bind at 1; rewrite Hauth; reflexivity.
Qed.

Lemma serve_get_user user_id req w w1 :
  require_admin_auth req w = (Ok tt, w1) ->
  fst (serve (GetUserInfo user_id) req w)
  = match fst (get_user_by_id user_id w1) with
    | Ok info => Ok (UserBody info)
    | Raise e => Raise e
    end.
Proof.
  intros Hauth. cbn [serve]. unfold get_user_info. unfold bind at 1.
  rewrite Hauth. unfold bind, ret.
  destruct (get_user_by_id user_id w1) as [[info|e] w2]; reflexivity.
Qed.

Lemma routes_get_after m req w w2 row :
  fst (require_admin_auth req w) = Ok tt ->
  sessions w2 = sessions w ->
  pg_faults w2 = [] ->
  users w2 = applied m (users w) ->
  List.find (selected (target m)) (users w) = Some row ->
  fst (serve (GetUserInfo (target m)) req w2)
  = Ok (UserBody (dict (if accepted m then effect m row else row))).
Proof.
  intros Hauth Hs Hq2 Hu Hf.
  pose proof (require_admin_auth_same_sessions req w w2 Hs) as Ha.
  rewrite Hauth in Ha.
  destruct (require_admin_auth req w2) as [r w3] eqn:E2. cbn [fst] in Ha.
  subst r.
  rewrite (serve_get_user (target m) req w2 w3 E2).
  destruct (require_admin_auth_ok req w2 w3 E2) as (h' & _ & _ & _ & Hw3).
  assert (Hq3 : pg_faults w3 = []) by (rewrite Hw3; exact Hq2).
  rewrite (get_user_by_id_quiet w3 (target m) Hq3). cbn [fst].
  replace (users w3) with (applied m (users w))
    by (rewrite Hw3; cbn [users record]; rewrite Hu; reflexivity).
  unfold applied. destruct (accepted m); [|rewrite Hf; reflexivity].
  unfold mutated. rewrite find_selected_updated.
  - rewrite Hf. reflexivity.
  - intros u. destruct m; split; reflexivity.
Qed.

(** X26.  Read your writes, through the routes: on a server that
    answers, a caller who passes the admin check and posts a group
    change, an increment or a reset for a live user gets ok, and a GET of
    that user by the same caller then shows the user with exactly that
    change applied.  The one exception is a group text that contains the
    NUL character: the post is answered with [ValueError] (an internal
    error), and the GET shows the user as it was. *)
Theorem routes_read_back m req w row :
  fst (require_admin_auth req w) = Ok tt ->
  pg_faults w = [] ->
  List.find (selected (target m)) (users w) = Some row ->
  fst (serve (route_of m) req w)
  = (if accepted m then Ok OkBody else Raise ValueError) /\
  fst (serve (GetUserInfo (target m)) req (snd (serve (route_of m) req w)))
  = Ok (UserBody (dict (if accepted m then effect m row else row))) /\
  (accepted m = false <->
   exists user_id g, m = SetGroup user_id g /\ has_nul g = true).
Proof.
  intros Hauth Hq Hf.
  destruct (require_admin_auth req w) as [r w1] eqn:E. cbn [fst] in Hauth.
  subst r.
  destruct (require_admin_auth_ok req w w1 E) as (h & Hh & Hp & Hv & Hw1).
  assert (Hq1 : pg_faults w1 = []) by (rewrite Hw1; exact Hq).
  assert (Hu1 : users w1 = users w) by (rewrite Hw1; reflexivity).
  rewrite (serve_route_of m req w w1 E).
  destruct (mutate_quiet m w1 Hq1) as (Hr & Hu & Hq2 & _ & Hs2).
  assert (Hsnd : snd ((mutate m >> ret OkBody) w1) = snd (mutate m w1)).
  { unfold bind, ret. destruct (mutate m w1) as [[[]|e] w2]; reflexivity. }
  assert (Hfst : fst ((mutate m >> ret OkBody) w1)
                 = if accepted m then Ok OkBody else Raise ValueError).
  { unfold bind, ret. destruct (mutate m w1) as [[[]|e] w2];
      cbn [fst] in *; destruct (accepted m); try discriminate Hr;
      congruence. }
  rewrite Hsnd, Hfst. split; [reflexivity|].
  split; [|apply accepted_false].
  apply (routes_get_after m req w _ row); auto.
  - rewrite E. reflexivity.
  - rewrite Hs2, Hw1. reflexivity.
  - rewrite Hu, Hu1. reflexivity.
Qed.

(** ** The further properties on the small instance *)

Lemma saved_settings_are_served_witness :
  fst (get_daily_reset_settings demo_request
         (snd (set_daily_reset_settings (DailyResetSettingsPayload.mk 7 0)
                 demo_request demo_world)))
  = Ok (SettingsBody 7 0).
Proof.
  apply (saved_settings_are_served (DailyResetSettingsPayload.mk 7 0)
           demo_request demo_world _ demo_request_passes); cbn; lia.
Defined.

Lemma settings_route_always_answers_witness :
  exists V D,
    fst (get_daily_reset_settings demo_request
           (fst (run "admin123"
                   [Call (SetDailyResetSettings
                            (DailyResetSettingsPayload.mk 7 0)) demo_request;
                    Cron]
                   (set_settings ∅ demo_world))))
    = Ok (SettingsBody V D) /\ 0 <= V /\ 0 <= D.
Proof.
  apply (settings_route_always_answers "admin123"
           [Call (SetDailyResetSettings (DailyResetSettingsPayload.mk 7 0))
                 demo_request; Cron]
           (set_settings ∅ demo_world) demo_request).
  - reflexivity.
  - vm_compute. reflexivity.
Defined.

Lemma get_daily_reset_settings_reads_witness :
  fst (get_daily_reset_settings demo_request unreadable_world)
  = Raise ValueError.
Proof.
  apply (proj1 (proj2 (proj2 (get_daily_reset_settings_reads
                                demo_request unreadable_world eq_refl)))).
  left. vm_compute. reflexivity.
Defined.

Lemma settings_change_only_by_their_route_witness :
  settings (snd (serve (ResetQuotaApi (UserQuotaResetPayload.mk 1 500))
                   demo_request demo_world))
  = settings demo_world.
Proof.
  apply (settings_change_only_by_their_route
           (ResetQuotaApi (UserQuotaResetPayload.mk 1 500))
           demo_request demo_world).
  intros payload H. discriminate H.
Defined.

Lemma wrong_password_changes_nothing_witness :
  admin_login (ADMIN_PASSWORD ∅) (AdminLoginPayload.mk "guess")
              demo_rnd "2024-05-01T11:00:00" demo_world
  = (Raise (HTTPException 401 "Invalid admin password"), demo_world).
Proof.
  apply (wrong_password_changes_nothing ∅ (AdminLoginPayload.mk "guess")
           demo_rnd "2024-05-01T11:00:00" demo_world).
  vm_compute. intros H. discriminate H.
Defined.

Lemma login_token_format_witness :
  String.length "deadbeef000000000000000000000000" = 32%nat /\
  forallb is_hex_digit
    (list_ascii_of_string "deadbeef000000000000000000000000") = true /\
  "deadbeef000000000000000000000000" = Py.hex (map demo_rnd (seq 0 16)).
Proof.
  apply (login_token_format "admin123" (AdminLoginPayload.mk "admin123")
           demo_rnd "2024-05-01T11:00:00" demo_world
           "deadbeef000000000000000000000000"
           (snd (admin_login "admin123" (AdminLoginPayload.mk "admin123")
                   demo_rnd "2024-05-01T11:00:00" demo_world))).
  reflexivity.
Defined.

Lemma admitted_request_stays_admitted_witness :
  fst (require_admin_auth demo_request
         (fst (run "admin123"
                 [Login (AdminLoginPayload.mk "admin123") demo_rnd "t1";
                  Cron]
                 demo_world)))
  = Ok tt.
Proof.
  apply (admitted_request_stays_admitted "admin123"
           [Login (AdminLoginPayload.mk "admin123") demo_rnd "t1"; Cron]
           demo_request demo_world).
  vm_compute. reflexivity.
Defined.

Lemma error_response_changes_nothing_witness :
  users (snd (serve (ResetQuotaApi (UserQuotaResetPayload.mk 1 500))
                demo_request (set_pg_faults [2%nat] demo_world)))
  = users demo_world.
Proof.
  apply (error_response_changes_nothing
           (ResetQuotaApi (UserQuotaResetPayload.mk 1 500))
           demo_request (set_pg_faults [2%nat] demo_world) OperationalError).
  vm_compute. reflexivity.
Defined.

Lemma updates_touch_only_their_id_witness :
  users (snd (mutate (ResetQuota 1 500) demo_world)) !! 1%nat = Some bob.
Proof.
  apply (updates_touch_only_their_id (ResetQuota 1 500) demo_world 1%nat bob).
  - reflexivity.
  - cbn. lia.
Defined.

Lemma updates_keep_other_columns_witness :
  exists u',
    users (snd (mutate (AddQuota 1 25) demo_world)) !! 0%nat = Some u' /\
    used_quota u' = 5.
Proof.
  destruct (updates_keep_other_columns (AddQuota 1 25) demo_world 0%nat alice
              eq_refl) as (_ & u' & Hu & _ & _ & _ & _ & _ & Hused).
  exists u'. split; [exact Hu|exact Hused].
Defined.

Lemma group_is_read_back_witness :
  fst (get_user_by_id 3 (snd (update_user_group 3 "vip" demo_world)))
  = Ok (mk_info 3 "carol" "Carol" "vip" 0 7) /\
  fst (update_user_group 3 nul_group demo_world) = Raise ValueError /\
  fst (get_user_by_id 3 (snd (update_user_group 3 nul_group demo_world)))
  = Ok (mk_info 3 "carol" "Carol" "enterprise" 0 7).
Proof.
  split; [|split].
  - apply (proj2 (group_is_read_back 3 "vip" demo_world (dict carol)
                    eq_refl eq_refl)).
  - apply (proj1 (group_is_read_back 3 nul_group demo_world (dict carol)
                    eq_refl eq_refl)).
  - apply (proj2 (group_is_read_back 3 nul_group demo_world (dict carol)
                    eq_refl eq_refl)).
Defined.

Lemma increment_is_read_back_witness :
  fst (get_user_by_id 2 (snd (increment_user_quota 2 (-10) demo_world)))
  = Ok (mk_info 2 "bob" "Bob" "default" (0 + -10) 6).
Proof.
  apply (increment_is_read_back 2 (-10) demo_world (dict bob)); reflexivity.
Defined.

Lemma increment_undone_witness :
  users (snd (increment_user_quota 1 (- 40)
                (snd (increment_user_quota 1 40 demo_world))))
  = users demo_world.
Proof. apply (increment_undone 1 40 demo_world). reflexivity. Defined.

Lemma reset_overrides_witness :
  users (snd (reset_user_quota 1 500
                (snd (increment_user_quota 1 40 demo_world))))
  = users (snd (reset_user_quota 1 500 demo_world)).
Proof.
  apply (proj1 (reset_overrides 1 500 demo_world eq_refl)).
Defined.

Lemma updates_of_other_ids_commute_witness :
  users (snd (mutate (AddQuota 2 5) (snd (mutate (SetGroup 1 "default")
                                            demo_world))))
  = users (snd (mutate (SetGroup 1 "default") (snd (mutate (AddQuota 2 5)
                                                      demo_world)))).
Proof.
  apply (updates_of_other_ids_commute (SetGroup 1 "default") (AddQuota 2 5)
           demo_world).
  - reflexivity.
  - cbn. lia.
Defined.

Lemma get_user_by_id_sound_witness :
  exists row,
    In row (users demo_world) /\ uid row = 2 /\ deleted_at row = None /\
    dict bob = dict row.
Proof.
  destruct (get_user_by_id_sound 2 demo_world (dict bob) eq_refl)
    as ((row & H1 & H2 & H3 & H4 & _) & _).
  exists row. auto.
Defined.

Lemma daily_reset_does_what_it_prints_witness :
  exists done rest,
    Permutation (done ++ rest) [alice; bob] /\
    users (snd (daily_reset "scheduled" interrupted_world))
    = fold_left
        (fun t c =>
           map (fun u => if selected (uid c) u
                         then with_quota_reset
                                (if String.eqb (group c) "vip"
                                 then 100000 else 20000) u
                         else u) t)
        done (users interrupted_world) /\
    ((done = [] /\
      stdout (snd (daily_reset "scheduled" interrupted_world))
      = [LogStart "scheduled"; LogFailed OperationalError]) \/
     exists last,
       stdout (snd (daily_reset "scheduled" interrupted_world))
       = ([LogStart "scheduled"; LogFound 2] ++
          map (fun c => LogReset (Py.upper (group c)) (uid c)
                                 (if String.eqb (group c) "vip"
                                  then 100000 else 20000))
              done ++
          [last])%list /\
       (last = LogDone /\ rest = [] \/
        last = LogFailed OperationalError /\ rest <> [])).
Proof.
  apply (daily_reset_does_what_it_prints "scheduled" interrupted_world
           100000 20000); vm_compute; reflexivity.
Defined.

Lemma daily_reset_never_writes_a_wrong_quota_witness :
  users (snd (daily_reset "scheduled" interrupted_world)) !! 2%nat
  = Some carol \/
  (deleted_at carol = None /\
   (group carol = "vip" \/ group carol = "default") /\
   users (snd (daily_reset "scheduled" interrupted_world)) !! 2%nat
   = Some (with_quota_reset
             (if String.eqb (group carol) "vip" then 100000 else 20000)
             carol)).
Proof.
  apply (daily_reset_never_writes_a_wrong_quota "scheduled" interrupted_world
           100000 20000 2%nat carol).
  - vm_compute. reflexivity.
  - vm_compute. reflexivity.
  - exact demo_ids_unique.
  - reflexivity.
Defined.

Lemma group_change_steers_the_job_witness :
  exists u',
    users (snd (daily_reset "manual"
                  (snd (update_user_group 3 "vip" demo_world)))) !! 2%nat
    = Some u' /\
    quota u' = 100000 /\ used_quota u' = 0.
Proof.
  destruct (group_change_steers_the_job "manual" demo_world 100000 20000
              2%nat carol "vip")
    as (u' & g' & Hg & Hu & _ & _ & Hvip & _).
  - reflexivity.
  - vm_compute. reflexivity.
  - vm_compute. reflexivity.
  - exact demo_ids_unique.
  - reflexivity.
  - reflexivity.
  - exists u'. split; [exact Hu|]. apply Hvip. exact Hg.
Defined.

Lemma daily_reset_prints_its_work_witness :
  exists visited,
    Permutation visited [alice; bob] /\
    stdout (snd (daily_reset "manual" demo_world))
    = ([LogStart "manual"; LogFound (length visited)] ++
       map (fun c => if String.eqb (group c) "vip"
                     then LogReset "VIP" (uid c) 100000
                     else LogReset "DEFAULT" (uid c) 20000)
           visited ++
       [LogDone])%list.
Proof.
  apply (daily_reset_prints_its_work "manual" demo_world 100000 20000).
  - reflexivity.
  - vm_compute. reflexivity.
  - vm_compute. reflexivity.
Defined.

Lemma daily_reset_unreadable_settings_witness :
  users (snd (daily_reset "scheduled" unreadable_world))
  = users unreadable_world /\
  stdout (snd (daily_reset "scheduled" unreadable_world))
  = [LogStart "scheduled"; LogFailed ValueError].
Proof.
  destruct (daily_reset_unreadable_settings "scheduled" unreadable_world)
    as (_ & Hu & _ & _ & _ & Ho & _).
  - left. vm_compute. reflexivity.
  - split; [exact Hu|exact Ho].
Defined.

Lemma routes_read_back_witness :
  fst (serve (GetUserInfo 2) demo_request
         (snd (serve (route_of (AddQuota 2 30)) demo_request demo_world)))
  = Ok (UserBody (mk_info 2 "bob" "Bob" "default" 30 6)) /\
  fst (serve (route_of (SetGroup 2 nul_group)) demo_request demo_world)
  = Raise ValueError.
Proof.
  split.
  - apply (proj1 (proj2 (routes_read_back (AddQuota 2 30) demo_request
                           demo_world bob eq_refl eq_refl eq_refl))).
  - apply (proj1 (routes_read_back (SetGroup 2 nul_group) demo_request
                    demo_world bob eq_refl eq_refl eq_refl)).
Defined.

Lemma daily_reset_after_history_witness :
  exists V D w',
    0 <= V /\ 0 <= D /\
    daily_reset "scheduled"
      (fst (run "admin123"
              [Call (SetDailyResetSettings (DailyResetSettingsPayload.mk 7 0))
                    demo_request]
              (set_settings ∅ demo_world)))
    = (Ok tt, w').
Proof.
  destruct (daily_reset_after_history "admin123"
              [Call (SetDailyResetSettings (DailyResetSettingsPayload.mk 7 0))
                    demo_request]
              (set_settings ∅ demo_world) "scheduled")
    as (V & D & w' & HV & HD & Hrun & _).
  - reflexivity.
  - vm_compute. reflexivity.
  - apply (bool_decide_unpack _). vm_compute. exact I.
  - exists V, D, w'. auto.
Defined.
